(** * dicomweb-pacs: the HTTP handlers of [src/app.js]

    A shallow embedding of the route handlers of the DICOMweb gateway
    ([node_modules/dicomweb-pacs/src/app.js]) and the properties of its
    query-resolution and frame-retrieval pipeline.

    Every handler is an [async] function that talks to collaborators
    living outside [app.js]: the configuration provider ([config.get]),
    the [utils] module (tag catalogue, query executor, existence check,
    transcode guard), the file system, the random source and the logger.
    A handler is embedded as a finite program over these calls (type
    [Prog]); running it against an arbitrary stateful environment
    ([Oracle]) gives the reply it sends and the trace of the calls it made,
    each with the answer it got.  Pure library functions ([path.join],
    [dicomParser.parseDicom], the rendering of an error inside a template
    string) are the fields of a [Platform]. *)

From Stdlib Require Import ZArith.
From stdpp Require Import gmap strings list fin_maps.
From Stdlib Require Import Strings.Ascii Strings.Byte.

Local Open Scope string_scope.
Local Open Scope Z_scope.

(** ** JavaScript values used by the handlers *)

(** A thrown value or a promise rejection.  [External] is an error raised
    by a collaborator; the others are raised by the JavaScript engine and
    by Node: reading a property of [undefined], calling what is not a
    function, an argument that is not of the type a library function
    takes, and a buffer view that leaves its array buffer. *)
Inductive JsError : Type :=
| External (text : string)
| TypeError_undefined (property : string)
| TypeError_not_a_function (callee : string)
| TypeError_invalid_argument (name : string)
| RangeError_bounds (argument : string).

(** The outcome of a call that may throw or reject. *)
Definition Result (A : Type) : Type := (JsError + A)%type.

(** An entry of [dataset.elements]: where the value of the element lies in
    the parsed byte array ([length] in the JavaScript object). *)
Record Element : Type := mkElement {
  dataOffset : Z;
  elemLength : Z
}.

(** What [dicomParser.parseDicom] returns, restricted to what [app.js]
    reads of it: [dataset.elements] and [dataset.byteArray.buffer]. *)
Record DataSet : Type := mkDataSet {
  elements : gmap string Element;
  byteArray_buffer : list byte
}.

(** The value the query executor resolves to (an array of DICOM-JSON
    records), kept as the text [reply.send] serialises it to. *)
Record Json : Type := mkJson { json_text : string }.

Inductive Level : Type := STUDY | SERIES | IMAGE.

(** The name of the level, as [app.js] passes it to [utils.doFind]. *)
Definition level_name (l : Level) : string :=
  match l with
  | STUDY => "STUDY"
  | SERIES => "SERIES"
  | IMAGE => "IMAGE"
  end.

(** [req.query]: the parsed query string, which the metadata handlers
    extend in place before they pass it to the query executor. *)
Abbreviation Query := (gmap string string).

(** What goes to [logger.error]: a message or a caught error. *)
Inductive LogArg : Type :=
| LogStr (msg : string)
| LogErr (error : JsError).

(** ** The calls a handler makes *)

Inductive Call : Type -> Type :=
| ConfigGet (key : string) : Call string
| StudyLevelTags : Call (list string)
| SeriesLevelTags : Call (list string)
| ImageLevelTags : Call (list string)
| ImageMetadataTags : Call (list string)
| DoFind (level : Level) (query : Query) (tags : list string) : Call (Result Json)
| FileExists (pathname : string) : Call (Result unit)
| CompressFile (pathname dir : string) (syntax : option string) : Call (Result unit)
| ReadFile (pathname : string) : Call (Result (list byte))
| RandomBytes (size : nat) : Call (list byte)
| LoggerError (what : LogArg) : Call unit.

(** A handler: a finite tree of calls, each continued with its answer. *)
Inductive Prog (R : Type) : Type :=
| Ret (r : R)
| Vis {X : Type} (c : Call X) (k : X -> Prog R).

Arguments Ret {R} r.
Arguments Vis {R X} c k.

Fixpoint bind {A B : Type} (p : Prog A) (f : A -> Prog B) : Prog B :=
  match p with
  | Ret a => f a
  | Vis c k => Vis c (fun x => bind (k x) f)
  end.

Definition call {X : Type} (c : Call X) : Prog X := Vis c Ret.

Notation "'let*' x ':=' p 'in' q" := (bind p (fun x => q))
  (at level 10, x name, p at level 100, q at level 200, only parsing).

(** A [try] block: a program that ends with the value of the block or with
    what it threw; a throw skips the rest of the block. *)
Definition Try (A : Type) : Type := Prog (Result A).

Definition try_bind {A B : Type} (p : Try A) (f : A -> Try B) : Try B :=
  bind p (fun r => match r with
                   | inl error => Ret (inl error)
                   | inr a => f a
                   end).

Definition await {A : Type} (c : Call (Result A)) : Try A := call c.

Definition lift {A : Type} (r : Result A) : Try A := Ret r.

Notation "'let?' x ':=' p 'in' q" := (try_bind p (fun x => q))
  (at level 10, x name, p at level 100, q at level 200, only parsing).

(** ** Running a handler *)

(** One call of a run, with the answer the environment gave. *)
Inductive Step : Type :=
| step {X : Type} (c : Call X) (answer : X).

(** The environment: any state, and for each call an answer and the next
    state.  Nothing is assumed of it: the file system may change under
    the transcode guard, the random source may repeat itself. *)
Definition Oracle (S : Type) : Type := forall X : Type, Call X -> S -> X * S.

Fixpoint run {S R : Type} (o : Oracle S) (p : Prog R) (s : S) : R * list Step :=
  match p with
  | Ret r => (r, [])
  | Vis c k =>
      let '(x, s') := o _ c s in
      let '(r, t) := run o (k x) s' in
      (r, step c x :: t)
  end.

(** ** Library functions *)

(** The functions of Node and of [dicom-parser] that the handlers apply
    and that have no effect.  The handlers are verified for every
    [Platform]. *)
Record Platform : Type := mkPlatform {
  (** [path.join(a, b)] *)
  path_join : string -> string -> string;
  (** [dicomParser.parseDicom(data)]: the data set, or what it throws *)
  parseDicom : list byte -> Result DataSet;
  (** an error inside a template string: [`${error}`] *)
  error_text : JsError -> string;
  (** [err.stack] *)
  error_stack : JsError -> string
}.

(** [Buffer.from(arrayBuffer, byteOffset, length)]: a view of [length]
    bytes from [byteOffset] on; it throws when the offset or the length
    leaves the array buffer, and a length that is not positive gives an
    empty view. *)
Definition Buffer_from (arrayBuffer : list byte) (byteOffset len : Z)
  : Result (list byte) :=
  let maxLength := Z.of_nat (length arrayBuffer) - byteOffset in
  if (maxLength <? 0) || (byteOffset <? 0) then inl (RangeError_bounds "offset")
  else if 0 <? len then
    if maxLength <? len then inl (RangeError_bounds "length")
    else inr (take (Z.to_nat len) (drop (Z.to_nat byteOffset) arrayBuffer))
  else inr [].

Definition hexDigit (n : N) : ascii :=
  match n with
  | 0 => "0" | 1 => "1" | 2 => "2" | 3 => "3" | 4 => "4" | 5 => "5"
  | 6 => "6" | 7 => "7" | 8 => "8" | 9 => "9" | 10 => "a" | 11 => "b"
  | 12 => "c" | 13 => "d" | 14 => "e" | _ => "f"
  end%N%char.

(** [buf.toString('hex')]: two lower-case digits per byte. *)
Fixpoint toString_hex (buf : list byte) : string :=
  match buf with
  | [] => EmptyString
  | b :: rest =>
      let n := Byte.to_N b in
      String (hexDigit (n / 16)) (String (hexDigit (n mod 16)) (toString_hex rest))
  end.

(** The characters of a hexadecimal token. *)
Definition hex_char (c : ascii) : bool :=
  match c with
  | "0" | "1" | "2" | "3" | "4" | "5" | "6" | "7" | "8" | "9"
  | "a" | "b" | "c" | "d" | "e" | "f" => true
  | _ => false
  end%char.

Fixpoint all_chars (ok : ascii -> bool) (s : string) : bool :=
  match s with
  | EmptyString => true
  | String c rest => ok c && all_chars ok rest
  end.

(** ** The reply *)

(** What a [Readable] pushes: a string or a buffer. *)
Inductive Chunk : Type :=
| Text (s : string)
| Bytes (b : list byte).

(** What [reply.send] is given.  A string goes out as a plain-text body;
    [PError] is the reply the framework itself sends when an [async]
    handler rejects. *)
Inductive Payload : Type :=
| PText (s : string)
| PJson (json : Json)
| PBuffer (data : list byte)
| PStream (chunks : list Chunk)
| PError (error : JsError).

Record Reply : Type := mkReply {
  statusCode : Z;
  headers : gmap string string;
  payload : option Payload
}.

(** A fresh reply: status 200, no header, nothing sent. *)
Definition reply0 : Reply :=
  {| statusCode := 200; headers := ∅; payload := None |}.

(** [reply.code(n)] *)
Definition code (n : Z) (reply : Reply) : Reply :=
  {| statusCode := n; headers := headers reply; payload := payload reply |}.

(** [reply.header(name, value)] *)
Definition header (name value : string) (reply : Reply) : Reply :=
  {| statusCode := statusCode reply;
     headers := <[name := value]> (headers reply);
     payload := payload reply |}.

(** [reply.send(p)] *)
Definition send (p : Payload) (reply : Reply) : Reply :=
  {| statusCode := statusCode reply; headers := headers reply; payload := Some p |}.

(** An [async] handler that rejects: the framework replies 500 with the
    error. *)
Definition rejected (error : JsError) (reply : Reply) : Reply :=
  send (PError error) (code 500 reply).

Definition chunk_bytes (c : Chunk) : list byte :=
  match c with
  | Text s => String.list_byte_of_string s
  | Bytes b => b
  end.

(** The bytes a stream of chunks puts on the wire. *)
Definition stream_bytes (chunks : list Chunk) : list byte :=
  concat (map chunk_bytes chunks).

(** The body of a reply, for the payloads that are bytes or text. *)
Definition body_bytes (reply : Reply) : list byte :=
  match payload reply with
  | Some (PText s) => String.list_byte_of_string s
  | Some (PBuffer data) => data
  | Some (PStream chunks) => stream_bytes chunks
  | Some (PJson json) => String.list_byte_of_string (json_text json)
  | Some (PError _) | None => []
  end.

(** ** The handlers of [app.js] *)

(** [reply.header('Content-Type', 'application/dicom+json'); reply.send(json)],
    or the framework's reply when the query executor rejected. *)
Definition send_json (found : Result Json) (reply : Reply) : Reply :=
  match found with
  | inl error => rejected error reply
  | inr json => send (PJson json) (header "Content-Type" "application/dicom+json" reply)
  end.

(** [GET /rs/studies] *)
Definition rs_studies (query : Query) : Prog Reply :=
  let* tags := call StudyLevelTags in
  let* json := call (DoFind STUDY query tags) in
  Ret (send_json json reply0).

(** [GET /viewer/rs/studies] *)
Definition viewer_rs_studies (query : Query) : Prog Reply :=
  let* tags := call StudyLevelTags in
  let* json := call (DoFind STUDY query tags) in
  Ret (send_json json reply0).

(** [GET /viewer/rs/studies/:studyInstanceUid/metadata] *)
Definition study_metadata (studyInstanceUid : string) (query : Query) : Prog Reply :=
  let query := <["StudyInstanceUID" := studyInstanceUid]> query in
  let* stTags := call StudyLevelTags in
  let* serTags := call SeriesLevelTags in
  let* json := call (DoFind SERIES query (stTags ++ serTags)) in
  Ret (send_json json reply0).

(** [GET /viewer/rs/studies/:studyInstanceUid/series] *)
Definition study_series (studyInstanceUid : string) (query : Query) : Prog Reply :=
  let* tags := call SeriesLevelTags in
  let query := <["StudyInstanceUID" := studyInstanceUid]> query in
  let* json := call (DoFind SERIES query tags) in
  Ret (send_json json reply0).

(** [GET /viewer/rs/studies/:studyInstanceUid/series/:seriesInstanceUid/instances] *)
Definition series_instances (studyInstanceUid seriesInstanceUid : string)
    (query : Query) : Prog Reply :=
  let* tags := call ImageLevelTags in
  let query := <["StudyInstanceUID" := studyInstanceUid]> query in
  let query := <["SeriesInstanceUID" := seriesInstanceUid]> query in
  let* json := call (DoFind IMAGE query tags) in
  Ret (send_json json reply0).

(** [GET /viewer/rs/studies/:studyInstanceUid/series/:seriesInstanceUid/metadata] *)
Definition series_metadata (studyInstanceUid seriesInstanceUid : string)
    (query : Query) : Prog Reply :=
  let* stTags := call StudyLevelTags in
  let* serTags := call SeriesLevelTags in
  let* imTags := call ImageMetadataTags in
  let query := <["StudyInstanceUID" := studyInstanceUid]> query in
  let query := <["SeriesInstanceUID" := seriesInstanceUid]> query in
  let* json := call (DoFind IMAGE query (stTags ++ serTags ++ imTags)) in
  Ret (send_json json reply0).

(** [req.params] of the frame route. *)
Record FrameParams : Type := mkFrameParams {
  studyInstanceUid : string;
  seriesInstanceUid : string;
  sopInstanceUid : string;
  frame : string
}.

(** The line terminator ['\r\n']. *)
Definition term : string := String "013" (String "010" EmptyString).

(** The value the frame handler gives the [Content-Type] header. *)
Definition frames_content_type (contentId boundary : string) : string :=
  "multipart/related;start=" +:+ contentId
  +:+ ";type='application/octed-stream';boundary='" +:+ boundary +:+ "'".

(** What the [read()] of the frame handler's [Readable] pushes. *)
Definition frames_chunks (contentId boundary : string) (buffer : list byte)
  : list Chunk :=
  let endline := term +:+ "--" +:+ boundary +:+ "--" +:+ term in
  [ Text (term +:+ "--" +:+ boundary +:+ term);
    Text ("Content-Location:localhost" +:+ term);
    Text ("Content-ID:" +:+ contentId +:+ term);
    Text ("Content-Type:application/octet-stream" +:+ term);
    Text term;
    Bytes buffer;
    Text endline ].

(** [dataset.elements.x7fe00010] and the buffer over its bytes; reading
    [dataOffset] of an absent element throws. *)
Definition pixel_data (dataset : DataSet) : Result (list byte) :=
  match elements dataset !! "x7fe00010" with
  | None => inl (TypeError_undefined "dataOffset")
  | Some pixelDataElement =>
      Buffer_from (byteArray_buffer dataset)
                  (dataOffset pixelDataElement) (elemLength pixelDataElement)
  end.

(** The last [try] block of the frame handler: read, parse, slice, send. *)
Definition frames_send (P : Platform) (pathname : string) (reply : Reply)
  : Try Reply :=
  let? data := await (ReadFile pathname) in
  let? dataset := lift (parseDicom P data) in
  let? buffer := lift (pixel_data dataset) in
  let* boundary := call (RandomBytes 16) in
  let boundary := toString_hex boundary in
  let* contentId := call (RandomBytes 16) in
  let contentId := toString_hex contentId in
  let reply := header "Content-Type" (frames_content_type contentId boundary) reply in
  let readStream := frames_chunks contentId boundary buffer in
  Ret (inr (send (PStream readStream) reply)).

(** [GET /viewer/rs/studies/:studyInstanceUid/series/:seriesInstanceUid/instances/:sopInstanceUid/frames/:frame] *)
Definition frames (P : Platform) (params : FrameParams) : Prog Reply :=
  let reply := reply0 in
  let* storagePath := call (ConfigGet "storagePath") in
  let studyPath := path_join P storagePath (studyInstanceUid params) in
  let pathname := path_join P studyPath (sopInstanceUid params) in
  let* found := call (FileExists pathname) in
  match found with
  | inl error =>
      let* _ := call (LoggerError (LogErr error)) in
      Ret (send (PText ("File " +:+ pathname +:+ " not found!")) (code 404 reply))
  | inr _ =>
      let* compressed :=
        call (CompressFile pathname studyPath (Some "1.2.840.10008.1.2")) in
      match compressed with
      | inl error =>
          let* _ := call (LoggerError (LogErr error)) in
          let msg := "failed to compress " +:+ pathname in
          Ret (send (PText msg) (code 500 reply))
      | inr _ =>
          let* sent := frames_send P pathname reply in
          match sent with
          | inl error =>
              let* _ := call (LoggerError (LogErr error)) in
              Ret (send (PText ("Error getting the file: " +:+ error_text P error +:+ "."))
                        (code 500 reply))
          | inr reply => Ret reply
          end
      end
  end.

(** [!value] for a query parameter: absent or the empty string. *)
Definition falsy (value : option string) : bool :=
  match value with
  | None => true
  | Some s => bool_decide (s = EmptyString)
  end.

(** A value of the parsed query string [req.query]: the string of a key
    that occurs once, or the array of the strings of a key that is
    repeated. *)
Inductive QueryValue : Type :=
| QString (s : string)
| QArray (items : list string).

(** [req.query], as the legacy endpoint receives it. *)
Abbreviation RawQuery := (gmap string QueryValue).

(** [!value] for a value of the query string: absent or the empty string;
    an array is not. *)
Definition falsy_value (value : option QueryValue) : bool :=
  match value with
  | None => true
  | Some (QString s) => bool_decide (s = EmptyString)
  | Some (QArray _) => false
  end.

(** [path.join(a, value)] for a value of the query string: it throws
    unless the value is a string. *)
Definition join_value (P : Platform) (a : string) (value : option QueryValue)
  : Result string :=
  match value with
  | Some (QString s) => inr (path_join P a s)
  | Some (QArray _) | None => inl (TypeError_invalid_argument "path")
  end.

(** [GET /viewer/wadouri].  The two [path.join] stand outside every [try]:
    when one throws, the [async] handler rejects and the framework
    replies. *)
Definition wadouri_raw (P : Platform) (query : RawQuery) : Prog Reply :=
  let reply := reply0 in
  let studyUid := query !! "studyUID" in
  let seriesUid := query !! "seriesUID" in
  let imageUid := query !! "objectUID" in
  if falsy_value studyUid || falsy_value seriesUid || falsy_value imageUid then
    let msg := "Error missing parameters." in
    let* _ := call (LoggerError (LogStr msg)) in
    Ret (send (PText msg) (code 500 reply))
  else
    let* storagePath := call (ConfigGet "storagePath") in
    match join_value P storagePath studyUid with
    | inl error => Ret (rejected error reply)
    | inr studyPath =>
    match join_value P studyPath imageUid with
    | inl error => Ret (rejected error reply)
    | inr pathname =>
    let* found := call (FileExists pathname) in
    match found with
    | inl error =>
        let* _ := call (LoggerError (LogErr error)) in
        let msg := "file not found " +:+ pathname in
        Ret (send (PText msg) (code 500 reply))
    | inr _ =>
        let* compressed := call (CompressFile pathname studyPath None) in
        match compressed with
        | inl error =>
            let* _ := call (LoggerError (LogErr error)) in
            let msg := "failed to compress " +:+ pathname in
            Ret (send (PText msg) (code 500 reply))
        | inr _ =>
            let reply := header "Content-Type" "application/dicom+json" reply in
            let* read := call (ReadFile pathname) in
            match read with
            | inl err =>
                let msg := "Error getting the file: " +:+ error_text P err +:+ "." in
                let* _ := call (LoggerError (LogStr msg)) in
                (* [reply.setCode] is not a function of the reply: the
                   callback throws, the process-level handler logs the
                   exception, and nothing is sent *)
                let uncaught := TypeError_not_a_function "reply.setCode" in
                let* _ := call (LoggerError (LogStr "uncaught exception received:")) in
                let* _ := call (LoggerError (LogStr (error_stack P uncaught))) in
                Ret reply
            | inr data => Ret (send (PBuffer data) reply)
            end
        end
    end
    end
    end.

(** [GET /viewer/wadouri] for a query string in which no key is repeated:
    every value is a string. *)
Definition wadouri (P : Platform) (query : Query) : Prog Reply :=
  wadouri_raw P (QString <$> query).

(** ** Reading a trace *)

(** The answers of the calls of one kind, in the order of the run. *)
Definition config_answer (st : Step) : option string :=
  match st with
  | @step X c x =>
      match c in Call X return X -> option string with
      | ConfigGet _ => fun root => Some root
      | _ => fun _ => None
      end x
  end.

Definition exists_answer (st : Step) : option (string * Result unit) :=
  match st with
  | @step X c x =>
      match c in Call X return X -> option (string * Result unit) with
      | FileExists pathname => fun r => Some (pathname, r)
      | _ => fun _ => None
      end x
  end.

Definition compress_answer (st : Step) : option (Result unit) :=
  match st with
  | @step X c x =>
      match c in Call X return X -> option (Result unit) with
      | CompressFile _ _ _ => fun r => Some r
      | _ => fun _ => None
      end x
  end.

Definition read_answer (st : Step) : option (Result (list byte)) :=
  match st with
  | @step X c x =>
      match c in Call X return X -> option (Result (list byte)) with
      | ReadFile _ => fun r => Some r
      | _ => fun _ => None
      end x
  end.

Definition random_answer (st : Step) : option (list byte) :=
  match st with
  | @step X c x =>
      match c in Call X return X -> option (list byte) with
      | RandomBytes _ => fun r => Some r
      | _ => fun _ => None
      end x
  end.

(** The queries handed to the query executor. *)
Definition find_call (st : Step) : option (Level * Query * list string) :=
  match st with
  | step (DoFind level query tags) _ => Some (level, query, tags)
  | step _ _ => None
  end.

(** The step is an access to the stored objects: the existence check, the
    transcode guard or a read. *)
Definition storage_access (st : Step) : bool :=
  match st with
  | step (FileExists _) _ | step (CompressFile _ _ _) _ | step (ReadFile _) _ => true
  | step _ _ => false
  end.

(** The step reads the configured storage root. *)
Definition config_access (st : Step) : bool :=
  match st with
  | step (ConfigGet _) _ => true
  | step _ _ => false
  end.

(** The step is the transcode guard or a read of the stored object. *)
Definition expensive (st : Step) : bool :=
  match st with
  | step (CompressFile _ _ _) _ | step (ReadFile _) _ => true
  | step _ _ => false
  end.

(** The existence check of the run rejected: the path is absent. *)
Definition path_absent (trace : list Step) : Prop :=
  exists pathname error, omap exists_answer trace = [(pathname, inl error)].



(** ** Notions of the specification *)

(** Following the specification (Storage Locator): the location of a
    stored object, [storagePath/StudyInstanceUID/SOPInstanceUID]. *)
Definition locate (P : Platform) (root studyUID objectUID : string) : string :=
  path_join P (path_join P root studyUID) objectUID.

Definition digit (c : ascii) : option N :=
  let n := N_of_ascii c in
  if ((48 <=? n) && (n <=? 57))%N then Some (n - 48)%N else None.

Fixpoint digits (acc : N) (s : string) : option N :=
  match s with
  | EmptyString => Some acc
  | String c rest =>
      match digit c with
      | Some d => digits (10 * acc + d)%N rest
      | None => None
      end
  end.

(** A decimal numeral, with the blanks that pad a DICOM integer string
    removed. *)
Definition decimal (s : string) : option N :=
  let s := String.string_of_list_ascii
             (filter (fun c => c <> " "%char) (String.list_ascii_of_string s)) in
  match s with
  | EmptyString => None
  | _ => digits 0 s
  end.

(** Following the specification (Frame Reference): the frame index of a
    request, the number in the [:frame] segment of the path. *)
Definition frameIndex (params : FrameParams) : option N :=
  decimal (frame params).

(** Following the specification (Frame Extractor): the frame count a
    stored object declares, the value of its NumberOfFrames element
    (0028,0008); an object without one has a single frame. *)
Definition declaredFrameCount (dataset : DataSet) : N :=
  match elements dataset !! "x00280008" with
  | None => 1%N
  | Some el =>
      match Buffer_from (byteArray_buffer dataset) (dataOffset el) (elemLength el) with
      | inr value => default 1%N (decimal (String.string_of_list_byte value))
      | inl _ => 1%N
      end
  end.

(** The bounds check the specification asks of the frame handler, on one
    run: a frame index above the declared frame count of the object that
    was read is answered with status 500. *)
Definition frame_bounds_checked {S : Type} (P : Platform) (o : Oracle S) (s : S)
    (params : FrameParams) : Prop :=
  forall data dataset n,
    omap read_answer (run o (frames P params) s).2 = [inr data] ->
    parseDicom P data = inr dataset ->
    frameIndex params = Some n ->
    (declaredFrameCount dataset < n)%N ->
    statusCode (run o (frames P params) s).1 = 500.


(** The [Content-Type] value the specification gives for a frame response. *)
Definition spec_content_type (contentId boundary : string) : string :=
  "multipart/related; start=" +:+ contentId
  +:+ "; type='application/octet-stream'; boundary='" +:+ boundary +:+ "'".

(** ** A small world to run the handlers in *)

(** A stand-in for [path.join] on two clean segments. *)
Definition slash_join (a b : string) : string := a +:+ "/" +:+ b.

(** A stand-in for [dicom-parser] on a toy layout: two bytes with the
    number of frames as an integer string, then the pixel data to the end
    of the file. *)
Definition toy_dataset (data : list byte) : DataSet :=
  {| elements :=
       {[ "x00280008" := {| dataOffset := 0; elemLength := 2 |};
          "x7fe00010" := {| dataOffset := 2;
                            elemLength := Z.of_nat (length data) - 2 |} ]};
     byteArray_buffer := data |}.

Definition toy_parse (data : list byte) : Result DataSet :=
  if (length data <? 2)%nat then inl (External "dicomParser.parseDicom: buffer overrun")
  else inr (toy_dataset data).

Definition toy_error_text (error : JsError) : string :=
  match error with
  | External text => text
  | TypeError_undefined property =>
      "TypeError: Cannot read property '" +:+ property +:+ "' of undefined"
  | TypeError_not_a_function callee => "TypeError: " +:+ callee +:+ " is not a function"
  | TypeError_invalid_argument name =>
      "TypeError: The " +:+ name +:+ " argument must be of type string"
  | RangeError_bounds argument =>
      "RangeError: " +:+ argument +:+ " is outside of buffer bounds"
  end.

Definition toy_platform : Platform :=
  {| path_join := slash_join;
     parseDicom := toy_parse;
     error_text := toy_error_text;
     error_stack := toy_error_text |}.

(** A single-frame object in the toy layout. *)
Definition toy_object : list byte := String.list_byte_of_string "1 PIXELS".

(** The stored objects of the small world. *)
Definition toy_files : gmap string (list byte) :=
  {[ "/data/1.2.3/4.5.6" := toy_object ]}.

Definition toy_stat (pathname : string) : Result unit :=
  match toy_files !! pathname with
  | Some _ => inr tt
  | None => inl (External ("ENOENT: no such file or directory, stat '" +:+ pathname +:+ "'"))
  end.

Definition toy_lookup (pathname : string) : Result (list byte) :=
  match toy_files !! pathname with
  | Some data => inr data
  | None => inl (External ("ENOENT: no such file or directory, open '" +:+ pathname +:+ "'"))
  end.

(** The environment of the small world.  Its state counts the draws of
    the random source: the n-th draw is [size] bytes of value n. *)
Definition toy_oracle : Oracle N :=
  fun X c =>
    match c in Call X return N -> X * N with
    | ConfigGet _ => fun n => ("/data", n)
    | StudyLevelTags => fun n => (["0020000D"; "00100010"], n)
    | SeriesLevelTags => fun n => (["0020000E"; "00080060"], n)
    | ImageLevelTags => fun n => (["00080018"], n)
    | ImageMetadataTags => fun n => (["00280010"; "00280011"], n)
    | DoFind _ _ _ => fun n => (inr (mkJson "[]"), n)
    | FileExists pathname => fun n => (toy_stat pathname, n)
    | CompressFile pathname _ _ => fun n => (toy_stat pathname, n)
    | ReadFile pathname => fun n => (toy_lookup pathname, n)
    | RandomBytes size =>
        fun n => (replicate size (default Byte.x00 (Byte.of_N n)), N.succ n)
    | LoggerError _ => fun n => (tt, n)
    end.

(** A request for a frame of the stored object of the small world. *)
Definition toy_params (frame : string) : FrameParams :=
  {| studyInstanceUid := "1.2.3"; seriesInstanceUid := "7.8.9";
     sopInstanceUid := "4.5.6"; frame := frame |}.

(** A request for an object the small world does not store. *)
Definition missing_params : FrameParams :=
  {| studyInstanceUid := "1.2.3"; seriesInstanceUid := "7.8.9";
     sopInstanceUid := "0.0.0"; frame := "1" |}.

Definition toy_query (studyUID seriesUID objectUID : string) : Query :=
  {[ "studyUID" := studyUID; "seriesUID" := seriesUID; "objectUID" := objectUID ]}.

(** ** The runs of the frame handler *)

(** The five ways a run of the frame handler can go, each with the reply
    and the whole trace. *)
Inductive frames_outcome (P : Platform) (params : FrameParams)
  : Reply -> list Step -> Prop :=
| frames_not_found (root : string) (error : JsError) :
    let studyPath := path_join P root (studyInstanceUid params) in
    let pathname := path_join P studyPath (sopInstanceUid params) in
    frames_outcome P params
      (send (PText ("File " +:+ pathname +:+ " not found!")) (code 404 reply0))
      [ step (ConfigGet "storagePath") root;
        step (FileExists pathname) (inl error);
        step (LoggerError (LogErr error)) tt ]
| frames_not_compressed (root : string) (error : JsError) :
    let studyPath := path_join P root (studyInstanceUid params) in
    let pathname := path_join P studyPath (sopInstanceUid params) in
    frames_outcome P params
      (send (PText ("failed to compress " +:+ pathname)) (code 500 reply0))
      [ step (ConfigGet "storagePath") root;
        step (FileExists pathname) (inr tt);
        step (CompressFile pathname studyPath (Some "1.2.840.10008.1.2")) (inl error);
        step (LoggerError (LogErr error)) tt ]
| frames_not_read (root : string) (error : JsError) :
    let studyPath := path_join P root (studyInstanceUid params) in
    let pathname := path_join P studyPath (sopInstanceUid params) in
    frames_outcome P params
      (send (PText ("Error getting the file: " +:+ error_text P error +:+ "."))
            (code 500 reply0))
      [ step (ConfigGet "storagePath") root;
        step (FileExists pathname) (inr tt);
        step (CompressFile pathname studyPath (Some "1.2.840.10008.1.2")) (inr tt);
        step (ReadFile pathname) (inl error);
        step (LoggerError (LogErr error)) tt ]
| frames_not_parsed (root : string) (data : list byte) (error : JsError) :
    let studyPath := path_join P root (studyInstanceUid params) in
    let pathname := path_join P studyPath (sopInstanceUid params) in
    forall Ethrown :
      parseDicom P data = inl error \/
      exists dataset, parseDicom P data = inr dataset /\ pixel_data dataset = inl error,
    frames_outcome P params
      (send (PText ("Error getting the file: " +:+ error_text P error +:+ "."))
            (code 500 reply0))
      [ step (ConfigGet "storagePath") root;
        step (FileExists pathname) (inr tt);
        step (CompressFile pathname studyPath (Some "1.2.840.10008.1.2")) (inr tt);
        step (ReadFile pathname) (inr data);
        step (LoggerError (LogErr error)) tt ]
| frames_sent (root : string) (data : list byte) (dataset : DataSet)
    (buffer random1 random2 : list byte) :
    let studyPath := path_join P root (studyInstanceUid params) in
    let pathname := path_join P studyPath (sopInstanceUid params) in
    let boundary := toString_hex random1 in
    let contentId := toString_hex random2 in
    forall (Eparse : parseDicom P data = inr dataset)
           (Epixel : pixel_data dataset = inr buffer),
    frames_outcome P params
      (send (PStream (frames_chunks contentId boundary buffer))
            (header "Content-Type" (frames_content_type contentId boundary) reply0))
      [ step (ConfigGet "storagePath") root;
        step (FileExists pathname) (inr tt);
        step (CompressFile pathname studyPath (Some "1.2.840.10008.1.2")) (inr tt);
        step (ReadFile pathname) (inr data);
        step (RandomBytes 16) random1;
        step (RandomBytes 16) random2 ].

(** The ways a run of the legacy handler can go. *)
Inductive wadouri_outcome (P : Platform) (query : Query)
  : Reply -> list Step -> Prop :=
| wadouri_missing :
    forall Efalsy : falsy (query !! "studyUID") || falsy (query !! "seriesUID")
                      || falsy (query !! "objectUID") = true,
    wadouri_outcome P query
      (send (PText "Error missing parameters.") (code 500 reply0))
      [ step (LoggerError (LogStr "Error missing parameters.")) tt ]
| wadouri_not_found (studyUid seriesUid imageUid root : string) (error : JsError) :
    let studyPath := path_join P root studyUid in
    let pathname := path_join P studyPath imageUid in
    forall (Estudy : query !! "studyUID" = Some studyUid)
           (Eseries : query !! "seriesUID" = Some seriesUid)
           (Eobject : query !! "objectUID" = Some imageUid),
    wadouri_outcome P query
      (send (PText ("file not found " +:+ pathname)) (code 500 reply0))
      [ step (ConfigGet "storagePath") root;
        step (FileExists pathname) (inl error);
        step (LoggerError (LogErr error)) tt ]
| wadouri_found (studyUid seriesUid imageUid root : string)
    (reply : Reply) (rest : list Step) :
    let studyPath := path_join P root studyUid in
    let pathname := path_join P studyPath imageUid in
    forall (Estudy : query !! "studyUID" = Some studyUid)
           (Eseries : query !! "seriesUID" = Some seriesUid)
           (Eobject : query !! "objectUID" = Some imageUid)
           (Erest : Forall (fun st => exists_answer st = None /\ config_answer st = None)
                           rest),
    wadouri_outcome P query reply
      (step (ConfigGet "storagePath") root :: step (FileExists pathname) (inr tt) :: rest).

(** ** More of the trace *)

(** The three accesses to a stored object. *)
Inductive StorageOp : Type := OpExists | OpCompress | OpRead.

(** The access a step makes to the stored objects, with its path. *)
Definition storage_call (st : Step) : option (StorageOp * string) :=
  match st with
  | step (FileExists pathname) _ => Some (OpExists, pathname)
  | step (CompressFile pathname _ _) _ => Some (OpCompress, pathname)
  | step (ReadFile pathname) _ => Some (OpRead, pathname)
  | step _ _ => None
  end.

(** The arguments of a call of the transcode guard. *)
Definition compress_call (st : Step) : option (string * string * option string) :=
  match st with
  | step (CompressFile pathname dir syntax) _ => Some (pathname, dir, syntax)
  | step _ _ => None
  end.

(** What a step hands to [logger.error]. *)
Definition log_entry (st : Step) : option LogArg :=
  match st with
  | step (LoggerError what) _ => Some what
  | step _ _ => None
  end.

(** The size a step asks of the random source. *)
Definition random_size (st : Step) : option nat :=
  match st with
  | step (RandomBytes size) _ => Some size
  | step _ _ => None
  end.

(** The tag list a call of the tag catalogue returned. *)
Definition tags_answer (st : Step) : option (list string) :=
  match st with
  | @step X c x =>
      match c in Call X return X -> option (list string) with
      | StudyLevelTags | SeriesLevelTags | ImageLevelTags | ImageMetadataTags =>
          fun tags => Some tags
      | _ => fun _ => None
      end x
  end.

(** What the query executor answered. *)
Definition find_answer (st : Step) : option (Result Json) :=
  match st with
  | @step X c x =>
      match c in Call X return X -> option (Result Json) with
      | DoFind _ _ _ => fun found => Some found
      | _ => fun _ => None
      end x
  end.

(** The step is a call of the tag catalogue or of the query executor. *)
Definition catalogue_or_find (st : Step) : bool :=
  match st with
  | step StudyLevelTags _ | step SeriesLevelTags _ | step ImageLevelTags _
  | step ImageMetadataTags _ | step (DoFind _ _ _) _ => true
  | step _ _ => false
  end.

(** ** The query routes *)

(** The six routes that [app.js] registers for metadata queries, each with
    the parameters of its path. *)
Inductive QueryRoute : Type :=
| RsStudies
| ViewerRsStudies
| StudyMetadata (studyInstanceUid : string)
| StudySeries (studyInstanceUid : string)
| SeriesInstances (studyInstanceUid seriesInstanceUid : string)
| SeriesMetadata (studyInstanceUid seriesInstanceUid : string).

(** The handler registered for a route. *)
Definition query_handler (route : QueryRoute) (query : Query) : Prog Reply :=
  match route with
  | RsStudies => rs_studies query
  | ViewerRsStudies => viewer_rs_studies query
  | StudyMetadata study => study_metadata study query
  | StudySeries study => study_series study query
  | SeriesInstances study series => series_instances study series query
  | SeriesMetadata study series => series_metadata study series query
  end.

(** The [:studyInstanceUid] segment of the path of a route, if it has one. *)
Definition route_study (route : QueryRoute) : option string :=
  match route with
  | RsStudies | ViewerRsStudies => None
  | StudyMetadata study | StudySeries study
  | SeriesInstances study _ | SeriesMetadata study _ => Some study
  end.

(** The [:seriesInstanceUid] segment of the path of a route, if it has one. *)
Definition route_series (route : QueryRoute) : option string :=
  match route with
  | SeriesInstances _ series | SeriesMetadata _ series => Some series
  | _ => None
  end.

(** ** The runs of the legacy handler, in full *)

(** The five ways a run of the legacy handler can go, each with the reply
    and the whole trace. *)
Inductive wadouri_served (P : Platform) (query : Query)
  : Reply -> list Step -> Prop :=
| served_missing :
    forall Efalsy : falsy (query !! "studyUID") || falsy (query !! "seriesUID")
                      || falsy (query !! "objectUID") = true,
    wadouri_served P query
      (send (PText "Error missing parameters.") (code 500 reply0))
      [ step (LoggerError (LogStr "Error missing parameters.")) tt ]
| served_not_found (studyUid seriesUid imageUid root : string) (error : JsError) :
    let studyPath := path_join P root studyUid in
    let pathname := path_join P studyPath imageUid in
    forall (Estudy : query !! "studyUID" = Some studyUid)
           (Eseries : query !! "seriesUID" = Some seriesUid)
           (Eobject : query !! "objectUID" = Some imageUid)
           (Etruthy : falsy (query !! "studyUID") || falsy (query !! "seriesUID")
                        || falsy (query !! "objectUID") = false),
    wadouri_served P query
      (send (PText ("file not found " +:+ pathname)) (code 500 reply0))
      [ step (ConfigGet "storagePath") root;
        step (FileExists pathname) (inl error);
        step (LoggerError (LogErr error)) tt ]
| served_not_compressed (studyUid seriesUid imageUid root : string) (error : JsError) :
    let studyPath := path_join P root studyUid in
    let pathname := path_join P studyPath imageUid in
    forall (Estudy : query !! "studyUID" = Some studyUid)
           (Eseries : query !! "seriesUID" = Some seriesUid)
           (Eobject : query !! "objectUID" = Some imageUid)
           (Etruthy : falsy (query !! "studyUID") || falsy (query !! "seriesUID")
                        || falsy (query !! "objectUID") = false),
    wadouri_served P query
      (send (PText ("failed to compress " +:+ pathname)) (code 500 reply0))
      [ step (ConfigGet "storagePath") root;
        step (FileExists pathname) (inr tt);
        step (CompressFile pathname studyPath None) (inl error);
        step (LoggerError (LogErr error)) tt ]
| served_not_read (studyUid seriesUid imageUid root : string) (error : JsError) :
    let studyPath := path_join P root studyUid in
    let pathname := path_join P studyPath imageUid in
    forall (Estudy : query !! "studyUID" = Some studyUid)
           (Eseries : query !! "seriesUID" = Some seriesUid)
           (Eobject : query !! "objectUID" = Some imageUid)
           (Etruthy : falsy (query !! "studyUID") || falsy (query !! "seriesUID")
                        || falsy (query !! "objectUID") = false),
    wadouri_served P query
      (header "Content-Type" "application/dicom+json" reply0)
      [ step (ConfigGet "storagePath") root;
        step (FileExists pathname) (inr tt);
        step (CompressFile pathname studyPath None) (inr tt);
        step (ReadFile pathname) (inl error);
        step (LoggerError
                (LogStr ("Error getting the file: " +:+ error_text P error +:+ "."))) tt;
        step (LoggerError (LogStr "uncaught exception received:")) tt;
        step (LoggerError
                (LogStr (error_stack P (TypeError_not_a_function "reply.setCode")))) tt ]
| served_whole (studyUid seriesUid imageUid root : string) (data : list byte) :
    let studyPath := path_join P root studyUid in
    let pathname := path_join P studyPath imageUid in
    forall (Estudy : query !! "studyUID" = Some studyUid)
           (Eseries : query !! "seriesUID" = Some seriesUid)
           (Eobject : query !! "objectUID" = Some imageUid)
           (Etruthy : falsy (query !! "studyUID") || falsy (query !! "seriesUID")
                        || falsy (query !! "objectUID") = false),
    wadouri_served P query
      (send (PBuffer data) (header "Content-Type" "application/dicom+json" reply0))
      [ step (ConfigGet "storagePath") root;
        step (FileExists pathname) (inr tt);
        step (CompressFile pathname studyPath None) (inr tt);
        step (ReadFile pathname) (inr data) ].

(** The six ways a run of the legacy handler can go on any query string,
    each with the reply and the whole trace. *)
Inductive wadouri_raw_outcome (P : Platform) (query : RawQuery)
  : Reply -> list Step -> Prop :=
| raw_missing :
    forall Efalsy : falsy_value (query !! "studyUID")
                      || falsy_value (query !! "seriesUID")
                      || falsy_value (query !! "objectUID") = true,
    wadouri_raw_outcome P query
      (send (PText "Error missing parameters.") (code 500 reply0))
      [ step (LoggerError (LogStr "Error missing parameters.")) tt ]
| raw_rejected (root : string) :
    forall (Etruthy : falsy_value (query !! "studyUID")
                        || falsy_value (query !! "seriesUID")
                        || falsy_value (query !! "objectUID") = false)
           (Earray : (exists items, query !! "studyUID" = Some (QArray items))
                     \/ (exists items, query !! "objectUID" = Some (QArray items))),
    wadouri_raw_outcome P query
      (rejected (TypeError_invalid_argument "path") reply0)
      [ step (ConfigGet "storagePath") root ]
| raw_not_found (studyUid imageUid root : string) (error : JsError) :
    let studyPath := path_join P root studyUid in
    let pathname := path_join P studyPath imageUid in
    forall (Estudy : query !! "studyUID" = Some (QString studyUid))
           (Eobject : query !! "objectUID" = Some (QString imageUid)),
    wadouri_raw_outcome P query
      (send (PText ("file not found " +:+ pathname)) (code 500 reply0))
      [ step (ConfigGet "storagePath") root;
        step (FileExists pathname) (inl error);
        step (LoggerError (LogErr error)) tt ]
| raw_not_compressed (studyUid imageUid root : string) (error : JsError) :
    let studyPath := path_join P root studyUid in
    let pathname := path_join P studyPath imageUid in
    forall (Estudy : query !! "studyUID" = Some (QString studyUid))
           (Eobject : query !! "objectUID" = Some (QString imageUid)),
    wadouri_raw_outcome P query
      (send (PText ("failed to compress " +:+ pathname)) (code 500 reply0))
      [ step (ConfigGet "storagePath") root;
        step (FileExists pathname) (inr tt);
        step (CompressFile pathname studyPath None) (inl error);
        step (LoggerError (LogErr error)) tt ]
| raw_not_read (studyUid imageUid root : string) (error : JsError) :
    let studyPath := path_join P root studyUid in
    let pathname := path_join P studyPath imageUid in
    forall (Estudy : query !! "studyUID" = Some (QString studyUid))
           (Eobject : query !! "objectUID" = Some (QString imageUid)),
    wadouri_raw_outcome P query
      (header "Content-Type" "application/dicom+json" reply0)
      [ step (ConfigGet "storagePath") root;
        step (FileExists pathname) (inr tt);
        step (CompressFile pathname studyPath None) (inr tt);
        step (ReadFile pathname) (inl error);
        step (LoggerError
                (LogStr ("Error getting the file: " +:+ error_text P error +:+ "."))) tt;
        step (LoggerError (LogStr "uncaught exception received:")) tt;
        step (LoggerError
                (LogStr (error_stack P (TypeError_not_a_function "reply.setCode")))) tt ]
| raw_whole (studyUid imageUid root : string) (data : list byte) :
    let studyPath := path_join P root studyUid in
    let pathname := path_join P studyPath imageUid in
    forall (Estudy : query !! "studyUID" = Some (QString studyUid))
           (Eobject : query !! "objectUID" = Some (QString imageUid)),
    wadouri_raw_outcome P query
      (send (PBuffer data) (header "Content-Type" "application/dicom+json" reply0))
      [ step (ConfigGet "storagePath") root;
        step (FileExists pathname) (inr tt);
        step (CompressFile pathname studyPath None) (inr tt);
        step (ReadFile pathname) (inr data) ].

(** A query string in which [studyUID] is repeated. *)
Definition repeated_query : RawQuery :=
  {[ "studyUID" := QArray ["1.2.3"; "1.2.4"];
     "seriesUID" := QString "7.8.9";
     "objectUID" := QString "4.5.6" ]}.

(** ** Reading a token back *)

(** The value of a hexadecimal digit. *)
Definition hexValue (c : ascii) : N :=
  match c with
  | "0" => 0 | "1" => 1 | "2" => 2 | "3" => 3 | "4" => 4 | "5" => 5
  | "6" => 6 | "7" => 7 | "8" => 8 | "9" => 9 | "a" => 10 | "b" => 11
  | "c" => 12 | "d" => 13 | "e" => 14 | _ => 15
  end%char%N.

(** The bytes a token stands for: two digits a byte. *)
Fixpoint fromHex (token : string) : option (list byte) :=
  match token with
  | EmptyString => Some []
  | String hi (String lo rest) =>
      match Byte.of_N (16 * hexValue hi + hexValue lo), fromHex rest with
      | Some b, Some buf => Some (b :: buf)
      | _, _ => None
      end
  | String _ EmptyString => None
  end.

(** ** Environments that fail *)

(** The environment [o], with the transcode guard answering [answer]. *)
Definition with_compress (answer : Result unit) (o : Oracle N) : Oracle N :=
  fun X c =>
    match c in Call X return N -> X * N with
    | CompressFile _ _ _ => fun n => (answer, n)
    | c' => o _ c'
    end.

(** The environment [o], with every read answering [answer]. *)
Definition with_read (answer : Result (list byte)) (o : Oracle N) : Oracle N :=
  fun X c =>
    match c in Call X return N -> X * N with
    | ReadFile _ => fun n => (answer, n)
    | c' => o _ c'
    end.

(** The environment [o], with the query executor answering [answer]. *)
Definition with_find (answer : Result Json) (o : Oracle N) : Oracle N :=
  fun X c =>
    match c in Call X return N -> X * N with
    | DoFind _ _ _ => fun n => (answer, n)
    | c' => o _ c'
    end.

(** A two-byte object in the toy layout: one frame, no pixel data. *)
Definition empty_object : list byte := String.list_byte_of_string "1 ".

(** A stand-in for a parser whose pixel-data element runs one byte past
    the end of the file. *)
Definition overrun_platform : Platform :=
  {| path_join := slash_join;
     parseDicom := fun data =>
       inr {| elements :=
                {[ "x7fe00010" := {| dataOffset := 0;
                                     elemLength := Z.of_nat (length data) + 1 |} ]};
              byteArray_buffer := data |};
     error_text := toy_error_text;
     error_stack := toy_error_text |}.

(** A stand-in for a parser that finds no element at all. *)
Definition bare_platform : Platform :=
  {| path_join := slash_join;
     parseDicom := fun data => inr {| elements := ∅; byteArray_buffer := data |};
     error_text := toy_error_text;
     error_stack := toy_error_text |}.

(** ** Proof steps *)

(** Splits a goal on the outcome of a run: [Hrun] relates the reply and
    the trace of the run by [frames_outcome] or [wadouri_outcome]. *)
Ltac outcome_cases Hrun :=
  lazymatch type of Hrun with
  | ?R (fst ?r) (snd ?r) =>
      destruct r as [reply trace]; cbn [fst snd] in *; destruct Hrun;
      repeat match goal with x := _ |- _ => subst x end
  end.

(** ** More proof steps *)

(** Asks the environment [o] for the answer of the next call of the run. *)
Ltac next_call o :=
  match goal with
  | |- context [o ?X ?c ?s] => destruct (o X c s) as [? ?]; cbn
  end.

(** ** Facts on the library functions *)

Lemma list_byte_of_string_app (a b : string) :
  String.list_byte_of_string (a +:+ b)
  = (String.list_byte_of_string a ++ String.list_byte_of_string b)%list.
Proof.
  induction a as [|c a IH]; [reflexivity|].
  change (String c a +:+ b) with (String c (a +:+ b)).
  unfold String.list_byte_of_string in *. cbn. by rewrite IH.
Qed.

Lemma omap_all_None {A B : Type} (f : A -> option B) (l : list A) :
  Forall (fun x => f x = None) l -> omap f l = [].
Proof. induction 1 as [|x l Hx _ IH]; cbn; [reflexivity|]. by rewrite Hx. Qed.

(** A view that [Buffer.from] grants is the block of the array buffer at
    the offset, of the length asked for. *)
Lemma Buffer_from_inr (arrayBuffer buffer : list byte) (byteOffset len : Z) :
  Buffer_from arrayBuffer byteOffset len = inr buffer ->
  buffer = take (Z.to_nat len) (drop (Z.to_nat byteOffset) arrayBuffer)
  /\ length buffer = Z.to_nat len.
Proof.
  unfold Buffer_from.
  destruct (_ || _) eqn:Hout; [intros ?; discriminate|].
  apply orb_false_iff in Hout as [Hmax Hoff].
  apply Z.ltb_ge in Hmax, Hoff.
  destruct (0 <? len) eqn:Hpos.
  - apply Z.ltb_lt in Hpos.
    destruct (_ <? len) eqn:Hlen; [intros ?; discriminate|].
    apply Z.ltb_ge in Hlen. intros [= <-]. split; [reflexivity|].
    rewrite length_take, length_drop. lia.
  - apply Z.ltb_ge in Hpos. intros [= <-].
    replace (Z.to_nat len) with 0%nat by lia. by rewrite take_0.
Qed.


(** The header value of the code is never the one of the specification:
    after [multipart/related;] the one goes on with [start], the other
    with a blank. *)
Lemma frames_content_type_not_spec (contentId boundary contentId' boundary' : string) :
  frames_content_type contentId boundary <> spec_content_type contentId' boundary'.
Proof. unfold frames_content_type, spec_content_type. cbn. discriminate. Qed.

(** ** The runs of the handlers, case by case *)

Section Runs.
Context {S : Type} (P : Platform) (o : Oracle S).

Lemma frames_run (params : FrameParams) (s : S) :
  frames_outcome P params (run o (frames P params) s).1 (run o (frames P params) s).2.
Proof.
  unfold frames, frames_send, await, lift, try_bind, call. cbn.
  destruct (o _ (ConfigGet "storagePath") s) as [root s1]. cbn.
  destruct (o _ (FileExists _) s1) as [[error|[]] s2]; cbn.
  { destruct (o _ (LoggerError _) s2) as [[] s3]. cbn. apply frames_not_found. }
  destruct (o _ (CompressFile _ _ _) s2) as [[error|[]] s3]; cbn.
  { destruct (o _ (LoggerError _) s3) as [[] s4]. cbn. apply frames_not_compressed. }
  destruct (o _ (ReadFile _) s3) as [[error|data] s4]; cbn.
  { destruct (o _ (LoggerError _) s4) as [[] s5]. cbn. apply frames_not_read. }
  destruct (parseDicom P data) as [error|dataset] eqn:Hparse; cbn.
  { destruct (o _ (LoggerError _) s4) as [[] s5]. cbn. apply frames_not_parsed. by left. }
  destruct (pixel_data dataset) as [error|buffer] eqn:Hpixel; cbn.
  { destruct (o _ (LoggerError _) s4) as [[] s5]. cbn. apply frames_not_parsed.
    right. by exists dataset. }
  destruct (o _ (RandomBytes 16) s4) as [random1 s5]. cbn.
  destruct (o _ (RandomBytes 16) s5) as [random2 s6]. cbn.
  by apply (frames_sent P params root data dataset buffer random1 random2).
Qed.

Lemma falsy_value_string (value : option string) :
  falsy_value (QString <$> value) = falsy value.
Proof. by destruct value. Qed.

Lemma truthy_inv (value : option string) :
  falsy value = false -> exists s, value = Some s /\ s <> EmptyString.
Proof.
  destruct value as [s|]; [|discriminate]. cbn. intros H.
  exists s. split; [reflexivity|]. by apply bool_decide_eq_false in H.
Qed.

Lemma wadouri_run (query : Query) (s : S) :
  wadouri_outcome P query (run o (wadouri P query) s).1 (run o (wadouri P query) s).2.
Proof.
  unfold wadouri, wadouri_raw, call. rewrite !lookup_fmap, !falsy_value_string.
  destruct (_ || _) eqn:Hmissing; cbn.
  { destruct (o _ (LoggerError _) s) as [[] s1]. cbn. by apply wadouri_missing. }
  apply orb_false_iff in Hmissing as [Hmissing Hobject].
  apply orb_false_iff in Hmissing as [Hstudy Hseries].
  apply truthy_inv in Hstudy as (studyUid & Hstudy & _).
  apply truthy_inv in Hseries as (seriesUid & Hseries & _).
  apply truthy_inv in Hobject as (imageUid & Hobject & _).
  rewrite Hstudy, Hobject. cbn.
  destruct (o _ (ConfigGet "storagePath") s) as [root s1]. cbn.
  destruct (o _ (FileExists _) s1) as [[error|[]] s2]; cbn.
  { destruct (o _ (LoggerError _) s2) as [[] s3]. cbn.
    by apply (wadouri_not_found P query studyUid seriesUid imageUid). }
  destruct (o _ (CompressFile _ _ _) s2) as [[error|[]] s3]; cbn.
  { destruct (o _ (LoggerError _) s3) as [[] s4]. cbn.
    apply (wadouri_found P query studyUid seriesUid imageUid); try done.
    repeat constructor. }
  destruct (o _ (ReadFile _) s3) as [[error|data] s4]; cbn.
  - destruct (o _ (LoggerError _) s4) as [[] s5]. cbn.
    destruct (o _ (LoggerError _) s5) as [[] s6]. cbn.
    destruct (o _ (LoggerError _) s6) as [[] s7]. cbn.
    apply (wadouri_found P query studyUid seriesUid imageUid); try done.
    repeat constructor.
  - apply (wadouri_found P query studyUid seriesUid imageUid); try done.
    repeat constructor.
Qed.
End Runs.

(** ** The frame endpoint and an absent object *)

(** In every run of the frame handler the existence check comes right
    after the storage root is read, before any other access to the
    stored object. *)
Lemma frames_existence_first {S : Type} (P : Platform) (o : Oracle S)
    (params : FrameParams) (s : S) :
  exists root found rest,
    (run o (frames P params) s).2
    = step (ConfigGet "storagePath") root
      :: step (FileExists (locate P root (studyInstanceUid params)
                                  (sopInstanceUid params))) found
      :: rest.
Proof.
  pose proof (frames_run P o params s) as Hrun; outcome_cases Hrun;
    by eexists _, _, _.
Qed.

(** C6: when the existence check of the frame endpoint rejects the
    resolved path, the reply has status 404 and the plain-text body
    [File {path} not found!], where [{path}] is the resolved path; the run
    consists of reading the storage root, the existence check and one log
    entry, so the transcode guard is not invoked and the file is not
    read. *)
Theorem frames_absent_404 {S : Type} (P : Platform) (o : Oracle S)
    (params : FrameParams) (s : S) :
  let r := run o (frames P params) s in
  path_absent r.2 ->
  exists root error,
    let pathname := locate P root (studyInstanceUid params) (sopInstanceUid params) in
    r.2 = [ step (ConfigGet "storagePath") root;
            step (FileExists pathname) (inl error);
            step (LoggerError (LogErr error)) tt ]
    /\ statusCode r.1 = 404
    /\ payload r.1 = Some (PText ("File " +:+ pathname +:+ " not found!"))
    /\ Forall (fun st => expensive st = false) r.2.
Proof.
  cbv zeta. pose proof (frames_run P o params s) as Hrun; outcome_cases Hrun; intros (p & e & Habsent); cbn in Habsent;
    try discriminate.
  exists root, error. repeat split. repeat constructor.
Qed.

(** ** The legacy endpoint and its parameters *)

(** C7: when one of the query parameters [studyUID], [seriesUID],
    [objectUID] is missing, the legacy endpoint replies 500 with the body
    [Error missing parameters.]; its run is the one log entry: the storage
    root is not read, no location is resolved and the stored objects are
    not accessed. *)
Theorem wadouri_missing_parameters {S : Type} (P : Platform) (o : Oracle S)
    (query : Query) (s : S) :
  let r := run o (wadouri P query) s in
  query !! "studyUID" = None \/ query !! "seriesUID" = None
    \/ query !! "objectUID" = None ->
  statusCode r.1 = 500
  /\ payload r.1 = Some (PText "Error missing parameters.")
  /\ r.2 = [ step (LoggerError (LogStr "Error missing parameters.")) tt ]
  /\ Forall (fun st => storage_access st = false /\ config_access st = false) r.2.
Proof.
  cbv zeta. intros Hmissing.
  pose proof (wadouri_run P o query s) as Hrun; outcome_cases Hrun.
  - repeat split. repeat constructor.
  - destruct Hmissing as [Hm|[Hm|Hm]]; congruence.
  - destruct Hmissing as [Hm|[Hm|Hm]]; congruence.
Qed.

(** The legacy endpoint answers an absent path with status 500 and the
    body [file not found {path}]. *)
Lemma wadouri_absent_500 {S : Type} (P : Platform) (o : Oracle S)
    (query : Query) (s : S) :
  let r := run o (wadouri P query) s in
  path_absent r.2 ->
  statusCode r.1 = 500
  /\ exists pathname, payload r.1 = Some (PText ("file not found " +:+ pathname)).
Proof.
  cbv zeta. pose proof (wadouri_run P o query s) as Hrun; outcome_cases Hrun; intros (p & e & Habsent); cbn in Habsent.
  - discriminate.
  - split; [reflexivity|]. by eexists.
  - rewrite omap_all_None in Habsent; [discriminate|].
    eapply Forall_impl; [eassumption|]. by intros st [? _].
Qed.

(** ** Tag projections of the composite metadata endpoints *)

(** C9: the study-metadata endpoint asks the query executor once, at
    SERIES level, for the study-level tags followed by the series-level
    tags; the series-metadata endpoint asks it once, at IMAGE level, for
    the study-level tags, then the series-level tags, then the
    image-metadata tags.  The tag lists are the ones the tag catalogue
    returned, in that order. *)
Theorem metadata_tag_composition {S : Type} (o : Oracle S) (s : S)
    (studyUid seriesUid : string) (query : Query) :
  (exists stTags serTags found,
     (run o (study_metadata studyUid query) s).2
     = [ step StudyLevelTags stTags;
         step SeriesLevelTags serTags;
         step (DoFind SERIES (<["StudyInstanceUID" := studyUid]> query)
                      (stTags ++ serTags)) found ])
  /\ (exists stTags serTags imTags found,
        (run o (series_metadata studyUid seriesUid query) s).2
        = [ step StudyLevelTags stTags;
            step SeriesLevelTags serTags;
            step ImageMetadataTags imTags;
            step (DoFind IMAGE
                    (<["SeriesInstanceUID" := seriesUid]>
                       (<["StudyInstanceUID" := studyUid]> query))
                    (stTags ++ serTags ++ imTags)) found ]).
Proof.
  split.
  - unfold study_metadata, call. cbn.
    destruct (o _ StudyLevelTags s) as [stTags s1]. cbn.
    destruct (o _ SeriesLevelTags s1) as [serTags s2]. cbn.
    destruct (o _ (DoFind _ _ _) s2) as [found s3]. cbn.
    by exists stTags, serTags, found.
  - unfold series_metadata, call. cbn.
    destruct (o _ StudyLevelTags s) as [stTags s1]. cbn.
    destruct (o _ SeriesLevelTags s1) as [serTags s2]. cbn.
    destruct (o _ ImageMetadataTags s2) as [imTags s3]. cbn.
    destruct (o _ (DoFind _ _ _) s3) as [found s4]. cbn.
    by exists stTags, serTags, imTags, found.
Qed.

(** ** The multipart envelope of a frame *)

Lemma hexDigit_hex (n : N) : hex_char (hexDigit n) = true.
Proof.
  destruct n as [|p]; [reflexivity|].
  do 4 (try destruct p as [p|p|]); try reflexivity.
Qed.

(** A token of the handler is made of hexadecimal digits. *)
Lemma toString_hex_chars (buf : list byte) : all_chars hex_char (toString_hex buf) = true.
Proof.
  induction buf as [|b buf IH]; [reflexivity|].
  cbn [toString_hex all_chars]. by rewrite !hexDigit_hex, IH.
Qed.

(** Two strings cut at the first occurrence of a separator agree on both
    sides of the cut. *)
Lemma append_separator_inj (ok : ascii -> bool) (sep : ascii) (a a' b b' : string) :
  ok sep = false -> all_chars ok a = true -> all_chars ok a' = true ->
  a +:+ String sep b = a' +:+ String sep b' -> a = a' /\ b = b'.
Proof.
  intros Hsep. revert a'.
  induction a as [|c a IH]; intros [|c' a'] Ha Ha' Heq; cbn in *.
  - by injection Heq.
  - injection Heq as <- _. apply andb_true_iff in Ha' as [Hc _]. congruence.
  - injection Heq as -> _. apply andb_true_iff in Ha as [Hc _]. congruence.
  - injection Heq as -> Heq.
    apply andb_true_iff in Ha as [_ Ha]. apply andb_true_iff in Ha' as [_ Ha'].
    destruct (IH a' Ha Ha' Heq) as [-> ->]. done.
Qed.

(** The header value determines its two tokens. *)
Lemma frames_content_type_tokens (contentId boundary contentId' boundary' : string) :
  all_chars hex_char contentId = true -> all_chars hex_char contentId' = true ->
  all_chars hex_char boundary = true -> all_chars hex_char boundary' = true ->
  frames_content_type contentId boundary = frames_content_type contentId' boundary' ->
  contentId = contentId' /\ boundary = boundary'.
Proof.
  intros Hc Hc' Hb Hb' Heq. unfold frames_content_type in Heq. cbn in Heq.
  injection Heq as Heq.
  apply (append_separator_inj hex_char) in Heq as [-> Heq]; [|done..].
  split; [reflexivity|].
  cbn in Heq. injection Heq as Heq.
  by apply (append_separator_inj hex_char) in Heq as [-> _].
Qed.


(** A reply of the frame handler with status 200 is the multipart
    envelope of the pixel data of the object that was read. *)
Lemma frames_200 {S : Type} (P : Platform) (o : Oracle S) (params : FrameParams) (s : S) :
  let r := run o (frames P params) s in
  statusCode r.1 = 200 ->
  exists data dataset buffer random1 random2,
    omap read_answer r.2 = [inr data]
    /\ parseDicom P data = inr dataset
    /\ pixel_data dataset = inr buffer
    /\ omap random_answer r.2 = [random1; random2]
    /\ r.1 = send (PStream (frames_chunks (toString_hex random2)
                                          (toString_hex random1) buffer))
                  (header "Content-Type"
                          (frames_content_type (toString_hex random2)
                                               (toString_hex random1)) reply0).
Proof.
  cbv zeta. pose proof (frames_run P o params s) as Hrun; outcome_cases Hrun; cbn; try discriminate.
  intros _. by exists data, dataset, buffer, random1, random2.
Qed.

(** A run of the frame handler that read and parsed an object whose pixel
    data lie in the buffer ends with status 200 and their envelope. *)
Lemma frames_read_200 {S : Type} (P : Platform) (o : Oracle S) (params : FrameParams)
    (s : S) (data : list byte) (dataset : DataSet) (buffer : list byte) :
  let r := run o (frames P params) s in
  omap read_answer r.2 = [inr data] ->
  parseDicom P data = inr dataset ->
  pixel_data dataset = inr buffer ->
  statusCode r.1 = 200
  /\ exists random1 random2,
       omap random_answer r.2 = [random1; random2]
       /\ r.1 = send (PStream (frames_chunks (toString_hex random2)
                                             (toString_hex random1) buffer))
                     (header "Content-Type"
                             (frames_content_type (toString_hex random2)
                                                  (toString_hex random1)) reply0).
Proof.
  cbv zeta. pose proof (frames_run P o params s) as Hrun; outcome_cases Hrun; cbn; intros Hread Hparse Hpixel;
    try discriminate.
  - injection Hread as <-.
    destruct Ethrown as [Ethrown|(dataset' & Eparse & Epixel)]; congruence.
  - injection Hread as <-. split; [reflexivity|].
    exists random1, random2. split; [reflexivity|]. congruence.
Qed.



(** The bytes of the envelope on the wire, character by character. *)
Lemma frames_chunks_wire (contentId boundary : string) (buffer : list byte) :
  let crlf := [Byte.x0d; Byte.x0a] in
  let text := String.list_byte_of_string in
  stream_bytes (frames_chunks contentId boundary buffer)
  = (crlf ++ text "--" ++ text boundary ++ crlf
          ++ text "Content-Location:localhost" ++ crlf
          ++ text "Content-ID:" ++ text contentId ++ crlf
          ++ text "Content-Type:application/octet-stream" ++ crlf
          ++ crlf
          ++ buffer
          ++ crlf ++ text "--" ++ text boundary ++ text "--" ++ crlf)%list.
Proof.
  cbv zeta. unfold stream_bytes, frames_chunks, term. cbn [map chunk_bytes concat].
  rewrite !list_byte_of_string_app, app_nil_r, <- !app_assoc. reflexivity.
Qed.

(** C4: the body of a successful frame response is one part: carriage
    return and line feed, the opening delimiter [--{boundary}] and the
    line terminator, the header lines [Content-Location:localhost],
    [Content-ID:{contentId}] and [Content-Type:application/octet-stream],
    each ended by the line terminator, an empty line, the raw frame bytes,
    and the closing delimiter [--{boundary}--] between two line
    terminators.  The boundary and the content identifier are the two
    tokens drawn from the random source; the [Content-Type] header of the
    response carries the content identifier in its [start] parameter and
    the boundary in its [boundary] parameter, and no other pair of
    hexadecimal tokens. *)
Theorem frames_multipart_body {S : Type} (P : Platform) (o : Oracle S)
    (params : FrameParams) (s : S) :
  let r := run o (frames P params) s in
  statusCode r.1 = 200 ->
  exists random1 random2 data dataset buffer,
    let boundary := toString_hex random1 in
    let contentId := toString_hex random2 in
    let crlf := [Byte.x0d; Byte.x0a] in
    let text := String.list_byte_of_string in
    omap random_answer r.2 = [random1; random2]
    /\ omap read_answer r.2 = [inr data]
    /\ parseDicom P data = inr dataset
    /\ pixel_data dataset = inr buffer
    /\ body_bytes r.1
       = (crlf ++ text "--" ++ text boundary ++ crlf
          ++ text "Content-Location:localhost" ++ crlf
          ++ text "Content-ID:" ++ text contentId ++ crlf
          ++ text "Content-Type:application/octet-stream" ++ crlf
          ++ crlf
          ++ buffer
          ++ crlf ++ text "--" ++ text boundary ++ text "--" ++ crlf)%list
    /\ headers r.1 !! "Content-Type"
       = Some ("multipart/related;start=" +:+ contentId
               +:+ ";type='application/octed-stream';boundary='" +:+ boundary +:+ "'")
    /\ forall contentId' boundary',
         all_chars hex_char contentId' = true ->
         all_chars hex_char boundary' = true ->
         headers r.1 !! "Content-Type"
         = Some ("multipart/related;start=" +:+ contentId'
                 +:+ ";type='application/octed-stream';boundary='" +:+ boundary' +:+ "'") ->
         contentId' = contentId /\ boundary' = boundary.
Proof.
  cbv zeta. intros Hok.
  destruct (frames_200 P o params s Hok)
    as (data & dataset & buffer & random1 & random2 & Hread & Hparse & Hpixel & Hrandom & Hreply).
  exists random1, random2, data, dataset, buffer.
  rewrite Hreply. cbn [headers send header body_bytes payload].
  rewrite lookup_insert_eq.
  split; [done|]. split; [done|]. split; [done|]. split; [done|].
  split; [apply frames_chunks_wire|]. split; [reflexivity|].
  intros contentId' boundary' Hc Hb Hheader.
  assert (frames_content_type contentId' boundary'
          = frames_content_type (toString_hex random2) (toString_hex random1))
    as Htokens.
  { apply (inj Some). symmetry. exact Hheader. }
  apply frames_content_type_tokens in Htokens; auto using toString_hex_chars.
Qed.

(** ** A frame of a single-frame object *)


(** ** The frame index *)

(** C10: two requests to the frame endpoint that differ in the frame
    index only have, in the same environment, the same run: the same
    reply (status, headers, body) and the same calls.  When the reply has
    status 200 the bytes it carries are the whole value of the pixel-data
    element of the object that was read, whatever the frame index. *)
Theorem frames_ignores_frame {S : Type} (P : Platform) (o : Oracle S) (s : S)
    (studyUid seriesUid sopUid frame1 frame2 : string) :
  let r1 := run o (frames P (mkFrameParams studyUid seriesUid sopUid frame1)) s in
  let r2 := run o (frames P (mkFrameParams studyUid seriesUid sopUid frame2)) s in
  r1 = r2
  /\ body_bytes r1.1 = body_bytes r2.1
  /\ (statusCode r1.1 = 200 ->
      exists data dataset pixelDataElement contentId boundary,
        let value := take (Z.to_nat (elemLength pixelDataElement))
                          (drop (Z.to_nat (dataOffset pixelDataElement))
                                (byteArray_buffer dataset)) in
        omap read_answer r1.2 = [inr data]
        /\ parseDicom P data = inr dataset
        /\ elements dataset !! "x7fe00010" = Some pixelDataElement
        /\ length value = Z.to_nat (elemLength pixelDataElement)
        /\ payload r1.1 = Some (PStream (frames_chunks contentId boundary value))).
Proof.
  cbv zeta. split; [reflexivity|]. split; [reflexivity|]. intros Hok.
  destruct (frames_200 P o _ s Hok)
    as (data & dataset & buffer & random1 & random2 & Hread & Hparse & Hpixel & _ & Hreply).
  unfold pixel_data in Hpixel.
  destruct (elements dataset !! "x7fe00010") as [pixelDataElement|] eqn:Helement;
    [|discriminate].
  apply Buffer_from_inr in Hpixel as [Hvalue Hlength].
  exists data, dataset, pixelDataElement, (toString_hex random2), (toString_hex random1).
  rewrite Hreply, <- Hvalue. by repeat split.
Qed.

(** C1, as the code has it: the frame handler compares the frame index
    with nothing.  A request whose frame index exceeds the frame count the
    object declares, for an object that is read and parsed and whose pixel
    data lie inside the buffer, is answered with status 200 and the
    envelope of the whole pixel data. *)
Theorem frames_index_unchecked {S : Type} (P : Platform) (o : Oracle S)
    (params : FrameParams) (s : S)
    (data : list byte) (dataset : DataSet) (buffer : list byte) (n : N) :
  let r := run o (frames P params) s in
  omap read_answer r.2 = [inr data] ->
  parseDicom P data = inr dataset ->
  pixel_data dataset = inr buffer ->
  frameIndex params = Some n ->
  (declaredFrameCount dataset < n)%N ->
  statusCode r.1 = 200
  /\ exists contentId boundary,
       payload r.1 = Some (PStream (frames_chunks contentId boundary buffer)).
Proof.
  cbv zeta. intros Hread Hparse Hpixel _ _.
  destruct (frames_read_200 P o params s _ _ _ Hread Hparse Hpixel)
    as (Hok & random1 & random2 & _ & Hreply).
  split; [exact Hok|]. rewrite Hreply. by eexists _, _.
Qed.

(** ** The storage location *)

(** C8: on both retrieval endpoints the path that is checked is
    [locate root StudyInstanceUID SOPInstanceUID], the join of the
    configured storage root with the two identifiers: a function of these
    three values, so equal inputs give equal paths.  The
    SeriesInstanceUID has no part in it: requests that differ in the
    series identifier only are the same program, on the frame endpoint
    and (for two series identifiers that are present) on the legacy one. *)
Theorem storage_location_resolution {S : Type} (P : Platform) (o : Oracle S) (s : S) :
  (forall params : FrameParams,
     exists root found,
       omap config_answer (run o (frames P params) s).2 = [root]
       /\ omap exists_answer (run o (frames P params) s).2
          = [(locate P root (studyInstanceUid params) (sopInstanceUid params), found)])
  /\ (forall studyUid seriesUid seriesUid' sopUid frame : string,
        frames P (mkFrameParams studyUid seriesUid sopUid frame)
        = frames P (mkFrameParams studyUid seriesUid' sopUid frame))
  /\ (forall (query : Query) (studyUid seriesUid imageUid : string),
        query !! "studyUID" = Some studyUid -> studyUid <> EmptyString ->
        query !! "seriesUID" = Some seriesUid -> seriesUid <> EmptyString ->
        query !! "objectUID" = Some imageUid -> imageUid <> EmptyString ->
        exists root found,
          omap config_answer (run o (wadouri P query) s).2 = [root]
          /\ omap exists_answer (run o (wadouri P query) s).2
             = [(locate P root studyUid imageUid, found)])
  /\ (forall (query : Query) (seriesUid seriesUid' : string),
        seriesUid <> EmptyString -> seriesUid' <> EmptyString ->
        wadouri P (<["seriesUID" := seriesUid]> query)
        = wadouri P (<["seriesUID" := seriesUid']> query)).
Proof.
  split; [|split; [|split]].
  - intros params. pose proof (frames_run P o params s) as Hrun; outcome_cases Hrun; by eexists _, _.
  - reflexivity.
  - intros query studyUid seriesUid imageUid Hstudy Hstudy' Hseries Hseries'
      Hobject Hobject'.
    pose proof (wadouri_run P o query s) as Hrun; outcome_cases Hrun.
    + rewrite Hstudy, Hseries, Hobject in Efalsy. cbn in Efalsy.
      rewrite !bool_decide_eq_false_2 in Efalsy by done. discriminate.
    + simplify_eq. by eexists _, _.
    + simplify_eq. exists root, (inr tt). cbn.
      rewrite (omap_all_None config_answer rest), (omap_all_None exists_answer rest);
        [done|..]; (eapply Forall_impl; [eassumption|]; by intros st [? ?]).
  - intros query seriesUid seriesUid' Hseries Hseries'. unfold wadouri, wadouri_raw.
    rewrite !lookup_fmap, !falsy_value_string.
    rewrite !lookup_insert_eq, !lookup_insert_ne by done. cbn [falsy].
    rewrite !bool_decide_eq_false_2 by done. reflexivity.
Qed.

(** ** The code against the specification *)

(** A successful frame response never has the [Content-Type] the
    specification writes: the code spells the type token
    [application/octed-stream] and separates the parameters with a
    semicolon alone. *)
Lemma frames_content_type_header {S : Type} (P : Platform) (o : Oracle S)
    (params : FrameParams) (s : S) :
  let r := run o (frames P params) s in
  statusCode r.1 = 200 ->
  (exists contentId boundary,
     headers r.1 !! "Content-Type" = Some (frames_content_type contentId boundary))
  /\ forall contentId boundary,
       headers r.1 !! "Content-Type" <> Some (spec_content_type contentId boundary).
Proof.
  cbv zeta. intros Hok.
  destruct (frames_200 P o params s Hok)
    as (data & dataset & buffer & random1 & random2 & _ & _ & _ & _ & Hreply).
  rewrite Hreply. cbn [headers send header]. rewrite lookup_insert_eq. split.
  - by eexists _, _.
  - intros contentId boundary Heq.
    apply (frames_content_type_not_spec (toString_hex random2) (toString_hex random1)
                                        contentId boundary).
    congruence.
Qed.

(** C2, on the stored object of the small world: the [Content-Type] of
    the successful frame response carries the two tokens of the body, but
    its type token reads [application/octed-stream]; the value is not the
    one the specification gives for these tokens. *)
Lemma frames_content_type_octed :
  let r := run toy_oracle (frames toy_platform (toy_params "1")) 0%N in
  statusCode r.1 = 200
  /\ headers r.1 !! "Content-Type"
     = Some ("multipart/related;start=01010101010101010101010101010101"
             +:+ ";type='application/octed-stream'"
             +:+ ";boundary='00000000000000000000000000000000'")
  /\ headers r.1 !! "Content-Type"
     <> Some (spec_content_type "01010101010101010101010101010101"
                                "00000000000000000000000000000000").
Proof. vm_compute. repeat split. discriminate. Qed.

(** C3, on an object the small world does not store: the legacy endpoint
    answers the absent path with status 500, where the frame endpoint
    answers the same path with status 404. *)
Lemma wadouri_absent_not_404 :
  let legacy := run toy_oracle (wadouri toy_platform (toy_query "1.2.3" "7.8.9" "0.0.0")) 0%N in
  let frame := run toy_oracle (frames toy_platform missing_params) 0%N in
  path_absent legacy.2
  /\ statusCode legacy.1 = 500
  /\ payload legacy.1 = Some (PText "file not found /data/1.2.3/0.0.0")
  /\ path_absent frame.2
  /\ statusCode frame.1 = 404.
Proof.
  cbv zeta. repeat split; try (by vm_compute); by eexists _, _; vm_compute.
Qed.

(** C1 fails on the code: in the small world the stored object declares
    one frame, the request asks for frame 2, and the reply has status
    200. *)
Lemma frames_bounds_check_absent :
  ~ frame_bounds_checked toy_platform toy_oracle 0%N (toy_params "2").
Proof.
  intros Hchecked.
  specialize (Hchecked toy_object (toy_dataset toy_object) 2%N).
  assert (200 = 500) as Habsurd; [|discriminate Habsurd].
  apply Hchecked; by vm_compute.
Qed.


(** ** The theorems at work in the small world *)

(** [frames_absent_404] on a request for an object that is not stored. *)
Lemma frames_absent_404_witness :
  let P := toy_platform in
  let params := missing_params in
  let r := run toy_oracle (frames P params) 0%N in
  path_absent r.2
  /\ exists root error,
       let pathname := locate P root (studyInstanceUid params) (sopInstanceUid params) in
       r.2 = [ step (ConfigGet "storagePath") root;
               step (FileExists pathname) (inl error);
               step (LoggerError (LogErr error)) tt ]
       /\ statusCode r.1 = 404
       /\ payload r.1 = Some (PText ("File " +:+ pathname +:+ " not found!"))
       /\ Forall (fun st => expensive st = false) r.2.
Proof.
  cbv zeta.
  assert (path_absent (run toy_oracle (frames toy_platform missing_params) 0%N).2) as Habsent.
  { eexists _, _. vm_compute. reflexivity. }
  split; [exact Habsent|].
  exact (frames_absent_404 toy_platform toy_oracle missing_params 0%N Habsent).
Defined.

(** [wadouri_missing_parameters] on a query without [objectUID]. *)
Lemma wadouri_missing_parameters_witness :
  let query : Query := {[ "studyUID" := "1.2.3"; "seriesUID" := "7.8.9" ]} in
  let r := run toy_oracle (wadouri toy_platform query) 0%N in
  query !! "objectUID" = None
  /\ statusCode r.1 = 500
  /\ payload r.1 = Some (PText "Error missing parameters.")
  /\ r.2 = [ step (LoggerError (LogStr "Error missing parameters.")) tt ]
  /\ Forall (fun st => storage_access st = false /\ config_access st = false) r.2.
Proof.
  cbv zeta. split; [vm_compute; reflexivity|].
  apply (wadouri_missing_parameters toy_platform toy_oracle
           {[ "studyUID" := "1.2.3"; "seriesUID" := "7.8.9" ]} 0%N).
  right. right. vm_compute. reflexivity.
Defined.

(** [frames_multipart_body] on frame 1 of the stored object. *)
Lemma frames_multipart_body_witness :
  let P := toy_platform in
  let r := run toy_oracle (frames P (toy_params "1")) 0%N in
  statusCode r.1 = 200
  /\ exists random1 random2 data dataset buffer,
       let boundary := toString_hex random1 in
       let contentId := toString_hex random2 in
       let crlf := [Byte.x0d; Byte.x0a] in
       let text := String.list_byte_of_string in
       omap random_answer r.2 = [random1; random2]
       /\ omap read_answer r.2 = [inr data]
       /\ parseDicom P data = inr dataset
       /\ pixel_data dataset = inr buffer
       /\ body_bytes r.1
          = (crlf ++ text "--" ++ text boundary ++ crlf
          ++ text "Content-Location:localhost" ++ crlf
          ++ text "Content-ID:" ++ text contentId ++ crlf
          ++ text "Content-Type:application/octet-stream" ++ crlf
          ++ crlf
          ++ buffer
          ++ crlf ++ text "--" ++ text boundary ++ text "--" ++ crlf)%list
       /\ headers r.1 !! "Content-Type"
          = Some ("multipart/related;start=" +:+ contentId
                  +:+ ";type='application/octed-stream';boundary='" +:+ boundary +:+ "'")
       /\ forall contentId' boundary',
            all_chars hex_char contentId' = true ->
            all_chars hex_char boundary' = true ->
            headers r.1 !! "Content-Type"
            = Some ("multipart/related;start=" +:+ contentId'
                    +:+ ";type='application/octed-stream';boundary='" +:+ boundary' +:+ "'") ->
            contentId' = contentId /\ boundary' = boundary.
Proof.
  cbv zeta.
  assert (statusCode (run toy_oracle (frames toy_platform (toy_params "1")) 0%N).1 = 200)
    as Hok by (vm_compute; reflexivity).
  split; [exact Hok|].
  exact (frames_multipart_body toy_platform toy_oracle (toy_params "1") 0%N Hok).
Defined.


(** [frames_index_unchecked] on frame 2 of the stored object, which
    declares one frame. *)
Lemma frames_index_unchecked_witness :
  let P := toy_platform in
  let params := toy_params "2" in
  let dataset := toy_dataset toy_object in
  let buffer := String.list_byte_of_string "PIXELS" in
  let r := run toy_oracle (frames P params) 0%N in
  (omap read_answer r.2 = [inr toy_object]
   /\ parseDicom P toy_object = inr dataset
   /\ pixel_data dataset = inr buffer
   /\ frameIndex params = Some 2%N
   /\ (declaredFrameCount dataset < 2)%N)
  /\ statusCode r.1 = 200
  /\ exists contentId boundary,
       payload r.1 = Some (PStream (frames_chunks contentId boundary buffer)).
Proof.
  cbv zeta. split.
  { repeat split; vm_compute; reflexivity. }
  apply (frames_index_unchecked toy_platform toy_oracle (toy_params "2") 0%N
           toy_object (toy_dataset toy_object) (String.list_byte_of_string "PIXELS") 2%N);
    vm_compute; reflexivity.
Defined.

(** ** The frame endpoint: replies and failures *)

(** X1: Every run of the frame handler sends a reply.  A reply with status
    200 is a stream and has the [Content-Type] header and no other; every
    other reply has status 404 or 500, a plain-text body and no header
    set by the handler. *)
Theorem frames_reply_shape {S : Type} (P : Platform) (o : Oracle S)
    (params : FrameParams) (s : S) :
  let r := run o (frames P params) s in
  (statusCode r.1 = 200
   /\ (exists chunks, payload r.1 = Some (PStream chunks))
   /\ exists value, headers r.1 = {[ "Content-Type" := value ]})
  \/ ((statusCode r.1 = 404 \/ statusCode r.1 = 500)
      /\ (exists text, payload r.1 = Some (PText text))
      /\ headers r.1 = ∅).
Proof.
  cbv zeta. pose proof (frames_run P o params s) as Hrun; outcome_cases Hrun; cbn;
    try (right; split; [auto|]; split; [by eexists|reflexivity]).
  left. split; [reflexivity|]. split; [by eexists|].
  eexists. apply insert_empty.
Qed.

(** X2: A failure of the frame handler is logged once, with the error that
    was caught, and a success is not logged: the run has no log entry
    when the status is 200, and otherwise exactly one, which is the error
    the existence check, the transcode guard or the read rejected with, or
    the one the parser or the slicing of the pixel data threw. *)
Theorem frames_failures_logged {S : Type} (P : Platform) (o : Oracle S)
    (params : FrameParams) (s : S) :
  let r := run o (frames P params) s in
  (statusCode r.1 = 200 /\ omap log_entry r.2 = [])
  \/ (statusCode r.1 <> 200
      /\ exists error,
           omap log_entry r.2 = [LogErr error]
           /\ ((exists pathname, omap exists_answer r.2 = [(pathname, inl error)])
               \/ omap compress_answer r.2 = [inl error]
               \/ omap read_answer r.2 = [inl error]
               \/ exists data,
                    omap read_answer r.2 = [inr data]
                    /\ (parseDicom P data = inl error
                        \/ exists dataset,
                             parseDicom P data = inr dataset
                             /\ pixel_data dataset = inl error))).
Proof.
  cbv zeta. pose proof (frames_run P o params s) as Hrun; outcome_cases Hrun; cbn.
  - right. split; [discriminate|]. exists error. split; [reflexivity|].
    left. by eexists.
  - right. split; [discriminate|]. exists error. split; [reflexivity|].
    right. by left.
  - right. split; [discriminate|]. exists error. split; [reflexivity|].
    right. right. by left.
  - right. split; [discriminate|]. exists error. split; [reflexivity|].
    right. right. right. by exists data.
  - by left.
Qed.

(** X3: When the transcode guard rejects, the frame handler replies 500 with
    the body [failed to compress {path}].  The guard was asked for the
    resolved path, inside the directory of the study, in the transfer
    syntax 1.2.840.10008.1.2; the object is not read and no token is
    drawn. *)
Theorem frames_transcode_failure {S : Type} (P : Platform) (o : Oracle S)
    (params : FrameParams) (s : S) (error : JsError) :
  let r := run o (frames P params) s in
  omap compress_answer r.2 = [inl error] ->
  exists root,
    let studyPath := path_join P root (studyInstanceUid params) in
    let pathname := path_join P studyPath (sopInstanceUid params) in
    omap config_answer r.2 = [root]
    /\ omap compress_call r.2 = [(pathname, studyPath, Some "1.2.840.10008.1.2")]
    /\ statusCode r.1 = 500
    /\ payload r.1 = Some (PText ("failed to compress " +:+ pathname))
    /\ omap log_entry r.2 = [LogErr error]
    /\ omap read_answer r.2 = []
    /\ omap random_answer r.2 = [].
Proof.
  cbv zeta. pose proof (frames_run P o params s) as Hrun; outcome_cases Hrun; cbn;
    intros Hcompress; try discriminate.
  injection Hcompress as <-. by exists root.
Qed.

(** X4: When the read of the stored object rejects, the frame handler replies
    500 with the body [Error getting the file: {error}.]; no header is
    set and no token is drawn. *)
Theorem frames_read_failure {S : Type} (P : Platform) (o : Oracle S)
    (params : FrameParams) (s : S) (error : JsError) :
  let r := run o (frames P params) s in
  omap read_answer r.2 = [inl error] ->
  statusCode r.1 = 500
  /\ payload r.1
     = Some (PText ("Error getting the file: " +:+ error_text P error +:+ "."))
  /\ headers r.1 = ∅
  /\ omap log_entry r.2 = [LogErr error]
  /\ omap random_answer r.2 = [].
Proof.
  cbv zeta. pose proof (frames_run P o params s) as Hrun; outcome_cases Hrun; cbn;
    intros Hread; try discriminate.
  by injection Hread as <-.
Qed.

(** X5: When the parser throws on the object that was read, the frame handler
    replies 500 with the body [Error getting the file: {error}.] for the
    error the parser threw; no token is drawn. *)
Theorem frames_parse_failure {S : Type} (P : Platform) (o : Oracle S)
    (params : FrameParams) (s : S) (data : list byte) (thrown : JsError) :
  let r := run o (frames P params) s in
  omap read_answer r.2 = [inr data] ->
  parseDicom P data = inl thrown ->
  statusCode r.1 = 500
  /\ payload r.1
     = Some (PText ("Error getting the file: " +:+ error_text P thrown +:+ "."))
  /\ headers r.1 = ∅
  /\ omap log_entry r.2 = [LogErr thrown]
  /\ omap random_answer r.2 = [].
Proof.
  cbv zeta. pose proof (frames_run P o params s) as Hrun; outcome_cases Hrun; cbn;
    intros Hread Hparse; try discriminate; injection Hread as <-.
  - destruct Ethrown as [Ethrown|(dataset & Eparse & _)]; [|congruence].
    by replace thrown with error by congruence.
  - congruence.
Qed.

(** X6: An object that parses but has no pixel-data element [x7fe00010] is
    answered with 500: reading [dataOffset] of the absent element throws,
    and the body is [Error getting the file: {error}.] for that error. *)
Theorem frames_pixel_data_absent {S : Type} (P : Platform) (o : Oracle S)
    (params : FrameParams) (s : S) (data : list byte) (dataset : DataSet) :
  let r := run o (frames P params) s in
  omap read_answer r.2 = [inr data] ->
  parseDicom P data = inr dataset ->
  elements dataset !! "x7fe00010" = None ->
  statusCode r.1 = 500
  /\ payload r.1
     = Some (PText ("Error getting the file: "
                    +:+ error_text P (TypeError_undefined "dataOffset") +:+ "."))
  /\ omap random_answer r.2 = [].
Proof.
  cbv zeta. intros Hread Hparse Habsent.
  assert (pixel_data dataset = inl (TypeError_undefined "dataOffset")) as Hpixel.
  { unfold pixel_data. by rewrite Habsent. }
  revert Hread.
  pose proof (frames_run P o params s) as Hrun; outcome_cases Hrun; cbn;
    intros Hread; try discriminate; injection Hread as <-.
  - destruct Ethrown as [Ethrown|(dataset' & Eparse & Epixel)]; [congruence|].
    by replace error with (TypeError_undefined "dataOffset") by congruence.
  - congruence.
Qed.

(** X7: An object whose pixel-data element leaves the parsed buffer (its
    offset lies outside, or its positive length runs past the end) is
    answered with 500 and the text of a range error; no byte of the
    buffer is sent. *)
Theorem frames_pixel_data_out_of_range {S : Type} (P : Platform) (o : Oracle S)
    (params : FrameParams) (s : S) (data : list byte) (dataset : DataSet)
    (pixelDataElement : Element) :
  let r := run o (frames P params) s in
  omap read_answer r.2 = [inr data] ->
  parseDicom P data = inr dataset ->
  elements dataset !! "x7fe00010" = Some pixelDataElement ->
  dataOffset pixelDataElement < 0
  \/ Z.of_nat (length (byteArray_buffer dataset)) < dataOffset pixelDataElement
  \/ (0 < elemLength pixelDataElement
      /\ Z.of_nat (length (byteArray_buffer dataset))
         < dataOffset pixelDataElement + elemLength pixelDataElement) ->
  statusCode r.1 = 500
  /\ (exists argument,
        payload r.1
        = Some (PText ("Error getting the file: "
                       +:+ error_text P (RangeError_bounds argument) +:+ ".")))
  /\ omap random_answer r.2 = [].
Proof.
  cbv zeta. intros Hread Hparse Helement Hout.
  assert (exists argument, pixel_data dataset = inl (RangeError_bounds argument))
    as [argument Hpixel].
  { unfold pixel_data, Buffer_from. rewrite Helement.
    destruct (_ || _) eqn:Houtside; [by eexists|].
    apply orb_false_iff in Houtside as [Hmax Hoff].
    apply Z.ltb_ge in Hmax, Hoff.
    destruct Hout as [Hout|[Hout|[Hpos Hout]]]; [lia..|].
    rewrite (proj2 (Z.ltb_lt _ _) Hpos).
    destruct (_ <? elemLength _) eqn:Hlen; [by eexists|].
    apply Z.ltb_ge in Hlen. lia. }
  revert Hread.
  pose proof (frames_run P o params s) as Hrun; outcome_cases Hrun; cbn;
    intros Hread; try discriminate; injection Hread as <-.
  - destruct Ethrown as [Ethrown|(dataset' & Eparse & Epixel)]; [congruence|].
    replace error with (RangeError_bounds argument) by congruence.
    split; [reflexivity|]. split; [by exists argument|reflexivity].
  - congruence.
Qed.

(** X8: A pixel-data element of length zero (or less) at an offset inside the
    buffer is served: status 200, with an empty block between the part
    headers and the closing delimiter. *)
Theorem frames_empty_pixel_data {S : Type} (P : Platform) (o : Oracle S)
    (params : FrameParams) (s : S) (data : list byte) (dataset : DataSet)
    (pixelDataElement : Element) :
  let r := run o (frames P params) s in
  omap read_answer r.2 = [inr data] ->
  parseDicom P data = inr dataset ->
  elements dataset !! "x7fe00010" = Some pixelDataElement ->
  0 <= dataOffset pixelDataElement <= Z.of_nat (length (byteArray_buffer dataset)) ->
  elemLength pixelDataElement <= 0 ->
  statusCode r.1 = 200
  /\ exists contentId boundary,
       payload r.1 = Some (PStream (frames_chunks contentId boundary [])).
Proof.
  cbv zeta. intros Hread Hparse Helement Hoffset Hlength.
  assert (pixel_data dataset = inr []) as Hpixel.
  { unfold pixel_data, Buffer_from. rewrite Helement.
    destruct (_ || _) eqn:Houtside.
    { apply orb_true_iff in Houtside as [H|H]; apply Z.ltb_lt in H; lia. }
    destruct (0 <? elemLength _) eqn:Hpos; [apply Z.ltb_lt in Hpos; lia|reflexivity]. }
  destruct (frames_read_200 P o params s _ _ _ Hread Hparse Hpixel)
    as (Hok & random1 & random2 & _ & Hreply).
  split; [exact Hok|]. rewrite Hreply. by eexists _, _.
Qed.

(** X9: The frame handler touches one stored object only, in a fixed order:
    the existence check, then the transcode guard, then the read, all on
    the resolved path, each only after the one before; a run stops
    anywhere after the first of them. *)
Theorem frames_storage_discipline {S : Type} (P : Platform) (o : Oracle S)
    (params : FrameParams) (s : S) :
  let r := run o (frames P params) s in
  exists root,
    let pathname := locate P root (studyInstanceUid params) (sopInstanceUid params) in
    omap config_answer r.2 = [root]
    /\ omap storage_call r.2 <> []
    /\ omap storage_call r.2
       `prefix_of` [(OpExists, pathname); (OpCompress, pathname); (OpRead, pathname)].
Proof.
  cbv zeta. pose proof (frames_run P o params s) as Hrun; outcome_cases Hrun;
    exists root; cbn; (split; [reflexivity|]); (split; [discriminate|]).
  - by exists [(OpCompress, locate P root (studyInstanceUid params) (sopInstanceUid params));
               (OpRead, locate P root (studyInstanceUid params) (sopInstanceUid params))].
  - by exists [(OpRead, locate P root (studyInstanceUid params) (sopInstanceUid params))].
  - by exists [].
  - by exists [].
  - by exists [].
Qed.

(** ** The tokens of the envelope *)

Lemma toString_hex_length (buf : list byte) :
  String.length (toString_hex buf) = (2 * length buf)%nat.
Proof. induction buf as [|b buf IH]; cbn; [reflexivity|]. rewrite IH. lia. Qed.

(** A token read back gives the bytes it was made of. *)
Lemma fromHex_toString_hex (buf : list byte) : fromHex (toString_hex buf) = Some buf.
Proof.
  induction buf as [|b buf IH]; [reflexivity|].
  cbn [toString_hex fromHex]. rewrite IH.
  assert (Byte.of_N (16 * hexValue (hexDigit (Byte.to_N b / 16))
                     + hexValue (hexDigit (Byte.to_N b mod 16))) = Some b) as ->;
    [|reflexivity].
  destruct b; vm_compute; reflexivity.
Qed.

(** X10: The boundary and the content identifier of a successful frame response
    are the hexadecimal spellings of two draws of 16 bytes from the random
    source, the boundary drawn first: two digits for every byte that was
    drawn, and different tokens for different draws. *)
Theorem frames_tokens {S : Type} (P : Platform) (o : Oracle S)
    (params : FrameParams) (s : S) :
  let r := run o (frames P params) s in
  statusCode r.1 = 200 ->
  exists random1 random2,
    let boundary := toString_hex random1 in
    let contentId := toString_hex random2 in
    omap random_size r.2 = [16%nat; 16%nat]
    /\ omap random_answer r.2 = [random1; random2]
    /\ headers r.1 !! "Content-Type" = Some (frames_content_type contentId boundary)
    /\ String.length boundary = (2 * length random1)%nat
    /\ String.length contentId = (2 * length random2)%nat
    /\ fromHex boundary = Some random1
    /\ fromHex contentId = Some random2
    /\ (random1 <> random2 -> boundary <> contentId).
Proof.
  cbv zeta. pose proof (frames_run P o params s) as Hrun; outcome_cases Hrun; cbn;
    try discriminate.
  intros _. exists random1, random2.
  rewrite lookup_insert_eq, !toString_hex_length, !fromHex_toString_hex.
  repeat split.
  intros Hdiffer Hsame. apply Hdiffer.
  pose proof (fromHex_toString_hex random1) as H1.
  rewrite Hsame, fromHex_toString_hex in H1. congruence.
Qed.

(** ** The legacy endpoint *)

Lemma wadouri_served_run {S : Type} (P : Platform) (o : Oracle S) (query : Query) (s : S) :
  wadouri_served P query (run o (wadouri P query) s).1 (run o (wadouri P query) s).2.
Proof.
  unfold wadouri, wadouri_raw, call. rewrite !lookup_fmap, !falsy_value_string.
  destruct (_ || _) eqn:Hmissing; cbn.
  { next_call o. destruct u. by apply served_missing. }
  pose proof Hmissing as Htruthy.
  apply orb_false_iff in Hmissing as [Hmissing Hobject].
  apply orb_false_iff in Hmissing as [Hstudy Hseries].
  apply truthy_inv in Hstudy as (studyUid & Hstudy & _).
  apply truthy_inv in Hseries as (seriesUid & Hseries & _).
  apply truthy_inv in Hobject as (imageUid & Hobject & _).
  rewrite Hstudy, Hobject. cbn.
  destruct (o _ (ConfigGet "storagePath") s) as [root s1]. cbn.
  destruct (o _ (FileExists _) s1) as [[error|[]] s2]; cbn.
  { destruct (o _ (LoggerError _) s2) as [[] s3]. cbn.
    by apply (served_not_found P query studyUid seriesUid imageUid). }
  destruct (o _ (CompressFile _ _ _) s2) as [[error|[]] s3]; cbn.
  { destruct (o _ (LoggerError _) s3) as [[] s4]. cbn.
    by apply (served_not_compressed P query studyUid seriesUid imageUid). }
  destruct (o _ (ReadFile _) s3) as [[error|data] s4]; cbn.
  - destruct (o _ (LoggerError _) s4) as [[] s5]. cbn.
    destruct (o _ (LoggerError _) s5) as [[] s6]. cbn.
    destruct (o _ (LoggerError _) s6) as [[] s7]. cbn.
    by apply (served_not_read P query studyUid seriesUid imageUid).
  - by apply (served_whole P query studyUid seriesUid imageUid).
Qed.

Lemma falsy_true (value : option string) :
  falsy value = true <-> value = None \/ value = Some EmptyString.
Proof.
  destruct value as [v|]; cbn.
  - rewrite bool_decide_eq_true. split; [intros ->; by right|].
    intros [?|[= ->]]; [discriminate|reflexivity].
  - split; [by left|reflexivity].
Qed.

(** X11: When the stored object is read, the legacy endpoint sends it whole:
    status 200, [Content-Type] [application/dicom+json] and no other
    header, and a body that is the bytes of the file, neither parsed nor
    wrapped.  The transcode guard was asked for the resolved path with no
    transfer syntax. *)
Theorem wadouri_whole_object {S : Type} (P : Platform) (o : Oracle S)
    (query : Query) (s : S) (data : list byte) :
  let r := run o (wadouri P query) s in
  omap read_answer r.2 = [inr data] ->
  statusCode r.1 = 200
  /\ headers r.1 = {[ "Content-Type" := "application/dicom+json" ]}
  /\ payload r.1 = Some (PBuffer data)
  /\ body_bytes r.1 = data
  /\ omap random_answer r.2 = []
  /\ omap log_entry r.2 = []
  /\ exists root studyUid imageUid,
       query !! "studyUID" = Some studyUid
       /\ query !! "objectUID" = Some imageUid
       /\ omap compress_call r.2
          = [(locate P root studyUid imageUid, path_join P root studyUid, None)].
Proof.
  cbv zeta. pose proof (wadouri_served_run P o query s) as Hrun; outcome_cases Hrun;
    cbn; intros Hread; try discriminate.
  injection Hread as <-.
  repeat split;
    first [reflexivity | apply insert_empty | by exists root, studyUid, imageUid].
Qed.

(** X12: When the read of the stored object fails after the checks passed, the
    legacy endpoint sends nothing: it logs the failure, and the call of
    [reply.setCode], which the reply does not have, throws before any
    [reply.send]; the exception goes to the log of the process. *)
Theorem wadouri_read_failure {S : Type} (P : Platform) (o : Oracle S)
    (query : Query) (s : S) (error : JsError) :
  let r := run o (wadouri P query) s in
  omap read_answer r.2 = [inl error] ->
  payload r.1 = None
  /\ omap log_entry r.2
     = [ LogStr ("Error getting the file: " +:+ error_text P error +:+ ".");
         LogStr "uncaught exception received:";
         LogStr (error_stack P (TypeError_not_a_function "reply.setCode")) ].
Proof.
  cbv zeta. pose proof (wadouri_served_run P o query s) as Hrun; outcome_cases Hrun;
    cbn; intros Hread; try discriminate.
  by injection Hread as <-.
Qed.

(** X13: When the transcode guard rejects, the legacy endpoint replies 500
    with the body [failed to compress {path}] and does not read the
    object. *)
Theorem wadouri_transcode_failure {S : Type} (P : Platform) (o : Oracle S)
    (query : Query) (s : S) (error : JsError) :
  let r := run o (wadouri P query) s in
  omap compress_answer r.2 = [inl error] ->
  statusCode r.1 = 500
  /\ headers r.1 = ∅
  /\ omap log_entry r.2 = [LogErr error]
  /\ omap read_answer r.2 = []
  /\ exists root studyUid imageUid,
       query !! "studyUID" = Some studyUid
       /\ query !! "objectUID" = Some imageUid
       /\ payload r.1
          = Some (PText ("failed to compress " +:+ locate P root studyUid imageUid)).
Proof.
  cbv zeta. pose proof (wadouri_served_run P o query s) as Hrun; outcome_cases Hrun;
    cbn; intros Hcompress; try discriminate.
  injection Hcompress as <-.
  repeat split; first [reflexivity | by exists root, studyUid, imageUid].
Qed.

(** X14: The legacy endpoint answers [Error missing parameters.] exactly when
    one of [studyUID], [seriesUID], [objectUID] is absent from the query
    string or is the empty string. *)
Theorem wadouri_missing_iff {S : Type} (P : Platform) (o : Oracle S)
    (query : Query) (s : S) :
  let r := run o (wadouri P query) s in
  payload r.1 = Some (PText "Error missing parameters.")
  <-> exists key, key ∈ ["studyUID"; "seriesUID"; "objectUID"]
                  /\ (query !! key = None \/ query !! key = Some EmptyString).
Proof.
  cbv zeta.
  assert ((exists key, key ∈ ["studyUID"; "seriesUID"; "objectUID"]
                       /\ (query !! key = None \/ query !! key = Some EmptyString))
          <-> falsy (query !! "studyUID") || falsy (query !! "seriesUID")
                || falsy (query !! "objectUID") = true) as ->.
  { rewrite !orb_true_iff, !falsy_true. split.
    - intros (key & Hkey & Hvalue).
      apply elem_of_cons in Hkey as [->|Hkey]; [tauto|].
      apply elem_of_cons in Hkey as [->|Hkey]; [tauto|].
      apply list_elem_of_singleton in Hkey as ->. tauto.
    - intros [[H|H]|H];
        [exists "studyUID"|exists "seriesUID"|exists "objectUID"];
        (split; [repeat constructor|exact H]). }
  pose proof (wadouri_served_run P o query s) as Hrun; outcome_cases Hrun; cbn;
    [done|split; [discriminate|congruence]..].
Qed.

Lemma wadouri_raw_run {S : Type} (P : Platform) (o : Oracle S)
    (query : RawQuery) (s : S) :
  wadouri_raw_outcome P query
    (run o (wadouri_raw P query) s).1 (run o (wadouri_raw P query) s).2.
Proof.
  unfold wadouri_raw, call.
  destruct (_ || _) eqn:Hmissing; cbn.
  { next_call o. destruct u. by apply raw_missing. }
  destruct (o _ (ConfigGet "storagePath") s) as [root s1]. cbn.
  destruct (query !! "studyUID") as [[studyUid|studyItems]|] eqn:Hstudy;
    [|cbn; apply raw_rejected; [by rewrite ?Hstudy|left; by eexists]
     |by cbn in Hmissing].
  destruct (query !! "objectUID") as [[imageUid|imageItems]|] eqn:Hobject;
    [|cbn; apply raw_rejected; [by rewrite ?Hstudy, ?Hobject|right; by eexists]
     |rewrite !orb_false_iff in Hmissing; by destruct Hmissing as [_ ?]].
  cbn.
  destruct (o _ (FileExists _) s1) as [[error|[]] s2]; cbn.
  { destruct (o _ (LoggerError _) s2) as [[] s3]. cbn.
    by apply (raw_not_found P query studyUid imageUid). }
  destruct (o _ (CompressFile _ _ _) s2) as [[error|[]] s3]; cbn.
  { destruct (o _ (LoggerError _) s3) as [[] s4]. cbn.
    by apply (raw_not_compressed P query studyUid imageUid). }
  destruct (o _ (ReadFile _) s3) as [[error|data] s4]; cbn.
  - destruct (o _ (LoggerError _) s4) as [[] s5]. cbn.
    destruct (o _ (LoggerError _) s5) as [[] s6]. cbn.
    destruct (o _ (LoggerError _) s6) as [[] s7]. cbn.
    by apply (raw_not_read P query studyUid imageUid).
  - by apply (raw_whole P query studyUid imageUid).
Qed.

(** A query string in which [studyUID] is repeated passes the check of
    the parameters; the storage root is read, [path.join] throws on the
    array, and the framework answers for the rejected handler. *)
Lemma wadouri_repeated_key :
  run toy_oracle (wadouri_raw toy_platform repeated_query) 0%N
  = (rejected (TypeError_invalid_argument "path") reply0,
     [step (ConfigGet "storagePath") "/data"]).
Proof. vm_compute. reflexivity. Qed.


(** X16: What the legacy endpoint answers, for every query string, with
    repeated keys or without: the whole object with status 200; a
    plain-text body with status 500 and no header; or, when [studyUID] or
    [objectUID] is repeated, the framework's reply with status 500 to the
    handler that rejected at [path.join].  No other status is sent, and a
    run in which the handler sends nothing is one whose read failed. *)
Theorem wadouri_reply_shape {S : Type} (P : Platform) (o : Oracle S)
    (query : RawQuery) (s : S) :
  let r := run o (wadouri_raw P query) s in
  match payload r.1 with
  | Some (PBuffer data) => statusCode r.1 = 200 /\ omap read_answer r.2 = [inr data]
  | Some (PText _) => statusCode r.1 = 500 /\ headers r.1 = ∅
  | Some (PError error) =>
      statusCode r.1 = 500
      /\ headers r.1 = ∅
      /\ error = TypeError_invalid_argument "path"
      /\ omap storage_call r.2 = []
      /\ ((exists items, query !! "studyUID" = Some (QArray items))
          \/ (exists items, query !! "objectUID" = Some (QArray items)))
  | Some _ => False
  | None => exists error, omap read_answer r.2 = [inl error]
  end.
Proof.
  cbv zeta. pose proof (wadouri_raw_run P o query s) as Hrun; outcome_cases Hrun;
    cbn; first [done | by eexists].
Qed.

(** ** The query endpoints *)

(** X17: Every query endpoint asks the query executor once, at the level of
    its route, and hands it the tag lists the tag catalogue returned,
    concatenated in the order they were asked for, with nothing added or
    dropped.  It makes no other call: no stored object, configuration
    value or random byte is touched, and nothing is logged. *)
Theorem query_tags_from_catalogue {S : Type} (o : Oracle S) (s : S)
    (route : QueryRoute) (query : Query) :
  let r := run o (query_handler route query) s in
  exists filters,
    omap find_call r.2
    = [( match route with
         | RsStudies | ViewerRsStudies => STUDY
         | StudyMetadata _ | StudySeries _ => SERIES
         | SeriesInstances _ _ | SeriesMetadata _ _ => IMAGE
         end,
         filters,
         concat (omap tags_answer r.2) )]
    /\ length (omap tags_answer r.2)
       = match route with
         | StudyMetadata _ => 2%nat
         | SeriesMetadata _ _ => 3%nat
         | _ => 1%nat
         end
    /\ Forall (fun st => catalogue_or_find st = true) r.2.
Proof.
  cbv zeta.
  destruct route; cbn;
    unfold rs_studies, viewer_rs_studies, study_metadata, study_series,
      series_instances, series_metadata, call; cbn;
    repeat next_call o; rewrite ?app_nil_r;
    (eexists; split; [reflexivity|]; split; [reflexivity|]; repeat constructor).
Qed.

(** X18: The filters a query endpoint hands to the query executor are the
    query string of the request, except that the identifiers in the path
    of the route win: [StudyInstanceUID] (and [SeriesInstanceUID] on the
    series routes) is the path segment, whatever the query string said;
    every other filter is passed on unchanged. *)
Theorem query_route_filters {S : Type} (o : Oracle S) (s : S)
    (route : QueryRoute) (query : Query) :
  let r := run o (query_handler route query) s in
  exists level (filters : Query) tags,
    omap find_call r.2 = [(level, filters, tags)]
    /\ filters !! "StudyInstanceUID"
       = match route_study route with
         | Some study => Some study
         | None => query !! "StudyInstanceUID"
         end
    /\ filters !! "SeriesInstanceUID"
       = match route_series route with
         | Some series => Some series
         | None => query !! "SeriesInstanceUID"
         end
    /\ forall key, key <> "StudyInstanceUID" -> key <> "SeriesInstanceUID" ->
                   filters !! key = query !! key.
Proof.
  cbv zeta.
  destruct route; cbn;
    unfold rs_studies, viewer_rs_studies, study_metadata, study_series,
      series_instances, series_metadata, call; cbn;
    repeat next_call o;
    (eexists _, _, _; split; [reflexivity|]);
    (split; [|split]); try intros key Hstudy Hseries;
    repeat first [rewrite lookup_insert_eq | rewrite lookup_insert_ne by done];
    reflexivity.
Qed.

(** X19: When the query executor resolves, a query endpoint replies 200 with
    [Content-Type] [application/dicom+json] and no other header, and the
    body is the value the executor resolved to, unchanged. *)
Theorem query_reply_resolved {S : Type} (o : Oracle S) (s : S)
    (route : QueryRoute) (query : Query) (json : Json) :
  let r := run o (query_handler route query) s in
  omap find_answer r.2 = [inr json] ->
  statusCode r.1 = 200
  /\ headers r.1 = {[ "Content-Type" := "application/dicom+json" ]}
  /\ payload r.1 = Some (PJson json)
  /\ body_bytes r.1 = String.list_byte_of_string (json_text json).
Proof.
  cbv zeta.
  destruct route; cbn;
    unfold rs_studies, viewer_rs_studies, study_metadata, study_series,
      series_instances, series_metadata, call; cbn;
    repeat next_call o; intros [= ->]; cbn;
    (repeat split; first [reflexivity | apply insert_empty]).
Qed.

(** ** More theorems at work in the small world *)

(** [frames_transcode_failure] where the transcode guard rejects. *)
Lemma frames_transcode_failure_witness :
  let P := toy_platform in
  let params := toy_params "1" in
  let error := External "transcode failed" in
  let r := run (with_compress (inl error) toy_oracle) (frames P params) 0%N in
  omap compress_answer r.2 = [inl error]
  /\ exists root,
       let studyPath := path_join P root (studyInstanceUid params) in
       let pathname := path_join P studyPath (sopInstanceUid params) in
       omap config_answer r.2 = [root]
       /\ omap compress_call r.2 = [(pathname, studyPath, Some "1.2.840.10008.1.2")]
       /\ statusCode r.1 = 500
       /\ payload r.1 = Some (PText ("failed to compress " +:+ pathname))
       /\ omap log_entry r.2 = [LogErr error]
       /\ omap read_answer r.2 = []
       /\ omap random_answer r.2 = [].
Proof.
  cbv zeta. split; [vm_compute; reflexivity|].
  apply (frames_transcode_failure toy_platform
           (with_compress (inl (External "transcode failed")) toy_oracle)
           (toy_params "1") 0%N (External "transcode failed")).
  vm_compute. reflexivity.
Defined.

(** [frames_read_failure] where the read rejects. *)
Lemma frames_read_failure_witness :
  let P := toy_platform in
  let error := External "EIO: i/o error, read" in
  let r := run (with_read (inl error) toy_oracle) (frames P (toy_params "1")) 0%N in
  omap read_answer r.2 = [inl error]
  /\ statusCode r.1 = 500
  /\ payload r.1
     = Some (PText ("Error getting the file: " +:+ error_text P error +:+ "."))
  /\ headers r.1 = ∅
  /\ omap log_entry r.2 = [LogErr error]
  /\ omap random_answer r.2 = [].
Proof.
  cbv zeta. split; [vm_compute; reflexivity|].
  apply (frames_read_failure toy_platform
           (with_read (inl (External "EIO: i/o error, read")) toy_oracle)
           (toy_params "1") 0%N (External "EIO: i/o error, read")).
  vm_compute. reflexivity.
Defined.

(** [frames_parse_failure] on a file of one byte, which the toy parser
    refuses. *)
Lemma frames_parse_failure_witness :
  let P := toy_platform in
  let data := [Byte.x31] in
  let thrown := External "dicomParser.parseDicom: buffer overrun" in
  let r := run (with_read (inr data) toy_oracle) (frames P (toy_params "1")) 0%N in
  (omap read_answer r.2 = [inr data] /\ parseDicom P data = inl thrown)
  /\ statusCode r.1 = 500
  /\ payload r.1
     = Some (PText ("Error getting the file: " +:+ error_text P thrown +:+ "."))
  /\ headers r.1 = ∅
  /\ omap log_entry r.2 = [LogErr thrown]
  /\ omap random_answer r.2 = [].
Proof.
  cbv zeta. split; [split; vm_compute; reflexivity|].
  apply (frames_parse_failure toy_platform (with_read (inr [Byte.x31]) toy_oracle)
           (toy_params "1") 0%N [Byte.x31]
           (External "dicomParser.parseDicom: buffer overrun"));
    vm_compute; reflexivity.
Defined.

(** [frames_pixel_data_absent] with a parser that finds no element. *)
Lemma frames_pixel_data_absent_witness :
  let P := bare_platform in
  let dataset := {| elements := ∅; byteArray_buffer := toy_object |} in
  let r := run toy_oracle (frames P (toy_params "1")) 0%N in
  (omap read_answer r.2 = [inr toy_object]
   /\ parseDicom P toy_object = inr dataset
   /\ elements dataset !! "x7fe00010" = None)
  /\ statusCode r.1 = 500
  /\ payload r.1
     = Some (PText ("Error getting the file: "
                    +:+ error_text P (TypeError_undefined "dataOffset") +:+ "."))
  /\ omap random_answer r.2 = [].
Proof.
  cbv zeta. split; [repeat split; vm_compute; reflexivity|].
  apply (frames_pixel_data_absent bare_platform toy_oracle (toy_params "1") 0%N
           toy_object {| elements := ∅; byteArray_buffer := toy_object |});
    vm_compute; reflexivity.
Defined.

(** [frames_pixel_data_out_of_range] with a parser whose pixel-data
    element is one byte longer than the file. *)
Lemma frames_pixel_data_out_of_range_witness :
  let P := overrun_platform in
  let pixelDataElement := {| dataOffset := 0; elemLength := 9 |} in
  let dataset := {| elements := {[ "x7fe00010" := pixelDataElement ]};
                    byteArray_buffer := toy_object |} in
  let r := run toy_oracle (frames P (toy_params "1")) 0%N in
  (omap read_answer r.2 = [inr toy_object]
   /\ parseDicom P toy_object = inr dataset
   /\ elements dataset !! "x7fe00010" = Some pixelDataElement
   /\ 0 < elemLength pixelDataElement
   /\ Z.of_nat (length (byteArray_buffer dataset))
      < dataOffset pixelDataElement + elemLength pixelDataElement)
  /\ statusCode r.1 = 500
  /\ (exists argument,
        payload r.1
        = Some (PText ("Error getting the file: "
                       +:+ error_text P (RangeError_bounds argument) +:+ ".")))
  /\ omap random_answer r.2 = [].
Proof.
  cbv zeta. split; [repeat split; vm_compute; reflexivity|].
  apply (frames_pixel_data_out_of_range overrun_platform toy_oracle (toy_params "1") 0%N
           toy_object
           {| elements := {[ "x7fe00010" := {| dataOffset := 0; elemLength := 9 |} ]};
              byteArray_buffer := toy_object |}
           {| dataOffset := 0; elemLength := 9 |});
    [vm_compute; reflexivity..|].
  right. right. split; vm_compute; reflexivity.
Defined.

(** [frames_empty_pixel_data] on a file of two bytes: the frame count and
    no pixel data. *)
Lemma frames_empty_pixel_data_witness :
  let P := toy_platform in
  let pixelDataElement := {| dataOffset := 2; elemLength := 0 |} in
  let dataset := toy_dataset empty_object in
  let r := run (with_read (inr empty_object) toy_oracle) (frames P (toy_params "1")) 0%N in
  (omap read_answer r.2 = [inr empty_object]
   /\ parseDicom P empty_object = inr dataset
   /\ elements dataset !! "x7fe00010" = Some pixelDataElement
   /\ 0 <= dataOffset pixelDataElement <= Z.of_nat (length (byteArray_buffer dataset))
   /\ elemLength pixelDataElement <= 0)
  /\ statusCode r.1 = 200
  /\ exists contentId boundary,
       payload r.1 = Some (PStream (frames_chunks contentId boundary [])).
Proof.
  cbv zeta.
  assert (0 <= 2 <= Z.of_nat (length (byteArray_buffer (toy_dataset empty_object))))
    as Hoffset by (vm_compute; split; discriminate).
  assert (0 <= 0) as Hlength by lia.
  split.
  { repeat split; first [apply Hoffset | exact Hlength | vm_compute; reflexivity]. }
  apply (frames_empty_pixel_data toy_platform (with_read (inr empty_object) toy_oracle)
           (toy_params "1") 0%N empty_object (toy_dataset empty_object)
           {| dataOffset := 2; elemLength := 0 |});
    first [exact Hoffset | exact Hlength | vm_compute; reflexivity].
Defined.

(** [frames_tokens] on frame 1 of the stored object. *)
Lemma frames_tokens_witness :
  let r := run toy_oracle (frames toy_platform (toy_params "1")) 0%N in
  statusCode r.1 = 200
  /\ exists random1 random2,
       let boundary := toString_hex random1 in
       let contentId := toString_hex random2 in
       omap random_size r.2 = [16%nat; 16%nat]
       /\ omap random_answer r.2 = [random1; random2]
       /\ headers r.1 !! "Content-Type" = Some (frames_content_type contentId boundary)
       /\ String.length boundary = (2 * length random1)%nat
       /\ String.length contentId = (2 * length random2)%nat
       /\ fromHex boundary = Some random1
       /\ fromHex contentId = Some random2
       /\ (random1 <> random2 -> boundary <> contentId).
Proof.
  cbv zeta. split; [vm_compute; reflexivity|].
  apply (frames_tokens toy_platform toy_oracle (toy_params "1") 0%N).
  vm_compute. reflexivity.
Defined.

(** [wadouri_whole_object] on the stored object. *)
Lemma wadouri_whole_object_witness :
  let P := toy_platform in
  let query := toy_query "1.2.3" "7.8.9" "4.5.6" in
  let r := run toy_oracle (wadouri P query) 0%N in
  omap read_answer r.2 = [inr toy_object]
  /\ statusCode r.1 = 200
  /\ headers r.1 = {[ "Content-Type" := "application/dicom+json" ]}
  /\ payload r.1 = Some (PBuffer toy_object)
  /\ body_bytes r.1 = toy_object
  /\ omap random_answer r.2 = []
  /\ omap log_entry r.2 = []
  /\ exists root studyUid imageUid,
       query !! "studyUID" = Some studyUid
       /\ query !! "objectUID" = Some imageUid
       /\ omap compress_call r.2
          = [(locate P root studyUid imageUid, path_join P root studyUid, None)].
Proof.
  cbv zeta. split; [vm_compute; reflexivity|].
  apply (wadouri_whole_object toy_platform toy_oracle
           (toy_query "1.2.3" "7.8.9" "4.5.6") 0%N toy_object).
  vm_compute. reflexivity.
Defined.

(** [wadouri_read_failure] where the read rejects. *)
Lemma wadouri_read_failure_witness :
  let P := toy_platform in
  let error := External "EIO: i/o error, read" in
  let r := run (with_read (inl error) toy_oracle)
               (wadouri P (toy_query "1.2.3" "7.8.9" "4.5.6")) 0%N in
  omap read_answer r.2 = [inl error]
  /\ payload r.1 = None
  /\ omap log_entry r.2
     = [ LogStr ("Error getting the file: " +:+ error_text P error +:+ ".");
         LogStr "uncaught exception received:";
         LogStr (error_stack P (TypeError_not_a_function "reply.setCode")) ].
Proof.
  cbv zeta. split; [vm_compute; reflexivity|].
  apply (wadouri_read_failure toy_platform
           (with_read (inl (External "EIO: i/o error, read")) toy_oracle)
           (toy_query "1.2.3" "7.8.9" "4.5.6") 0%N (External "EIO: i/o error, read")).
  vm_compute. reflexivity.
Defined.

(** [wadouri_transcode_failure] where the transcode guard rejects. *)
Lemma wadouri_transcode_failure_witness :
  let P := toy_platform in
  let query := toy_query "1.2.3" "7.8.9" "4.5.6" in
  let error := External "transcode failed" in
  let r := run (with_compress (inl error) toy_oracle) (wadouri P query) 0%N in
  omap compress_answer r.2 = [inl error]
  /\ statusCode r.1 = 500
  /\ headers r.1 = ∅
  /\ omap log_entry r.2 = [LogErr error]
  /\ omap read_answer r.2 = []
  /\ exists root studyUid imageUid,
       query !! "studyUID" = Some studyUid
       /\ query !! "objectUID" = Some imageUid
       /\ payload r.1
          = Some (PText ("failed to compress " +:+ locate P root studyUid imageUid)).
Proof.
  cbv zeta. split; [vm_compute; reflexivity|].
  apply (wadouri_transcode_failure toy_platform
           (with_compress (inl (External "transcode failed")) toy_oracle)
           (toy_query "1.2.3" "7.8.9" "4.5.6") 0%N (External "transcode failed")).
  vm_compute. reflexivity.
Defined.

(** [query_reply_resolved] on the series-metadata route. *)
Lemma query_reply_resolved_witness :
  let json := mkJson "[]" in
  let r := run toy_oracle (query_handler (SeriesMetadata "1.2.3" "7.8.9") ∅) 0%N in
  omap find_answer r.2 = [inr json]
  /\ statusCode r.1 = 200
  /\ headers r.1 = {[ "Content-Type" := "application/dicom+json" ]}
  /\ payload r.1 = Some (PJson json)
  /\ body_bytes r.1 = String.list_byte_of_string (json_text json).
Proof.
  cbv zeta. split; [vm_compute; reflexivity|].
  apply (query_reply_resolved toy_oracle 0%N (SeriesMetadata "1.2.3" "7.8.9") ∅
           (mkJson "[]")).
  vm_compute. reflexivity.
Defined.
